(** * A shallow embedding of [src/src/pipelines/brenda_ingestion.py]

    Python [str] values are modelled as Rocq [string]s whose characters are
    code points below 256 (Latin-1); the character classes [\d], [\s] and
    [str.strip] below are Python's classes restricted to that range.
    Regular expressions are run by a backtracking matcher that tries
    alternatives in Python's order (greedy [?], [*], [+], lazy [*?]). *)

From Stdlib Require Import String Ascii ZArith Lia Bool.
From stdpp Require Import base gmap strings list.
From Stdlib Require Import Sorting.Sorted Sorting.Permutation.

Open Scope string_scope.
Open Scope list_scope.

(** ** Python exceptions and fallible results *)

Inductive exn :=
| FileNotFoundError (path : string)
| ValueError
| TypeError
| AttributeError
| KeyError
| JSONError
| UnicodeDecodeError.

Inductive result (A : Type) :=
| Ok (a : A)
| Raise (e : exn).
Arguments Ok {A} a.
Arguments Raise {A} e.

Definition rbind {A B} (m : result A) (f : A -> result B) : result B :=
  match m with Ok a => f a | Raise e => Raise e end.

Global Instance result_ret : MRet result := fun A a => Ok a.
Global Instance result_bind : MBind result := fun A B f m => rbind m f.

(** ** Characters and [str] helpers *)

Definition code (c : ascii) : nat := nat_of_ascii c.

Definition is_char (d c : ascii) : bool := Ascii.eqb c d.

(** [\d] on code points below 256: the ASCII digits. *)
Definition is_digit (c : ascii) : bool := ((48 <=? code c) && (code c <=? 57))%nat.

(** [\s] and [str.isspace] on code points below 256:
    \t \n \v \f \r, \x1c-\x1f, space, \x85 and \xa0. *)
Definition is_space (c : ascii) : bool :=
  let n := code c in
  (((9 <=? n) && (n <=? 13)) || ((28 <=? n) && (n <=? 32)) || (n =? 133) || (n =? 160))%nat.

Definition nl : ascii := ascii_of_nat 10%nat.
Definition tab : ascii := ascii_of_nat 9%nat.
Definition cr : ascii := ascii_of_nat 13%nat.

Fixpoint lstrip (s : string) : string :=
  match s with
  | EmptyString => EmptyString
  | String c t => if is_space c then lstrip t else s
  end.

Fixpoint rstrip (s : string) : string :=
  match s with
  | EmptyString => EmptyString
  | String c t =>
      let t' := rstrip t in
      if String.eqb t' EmptyString && is_space c then EmptyString else String c t'
  end.

(** [str.strip()] *)
Definition py_strip (s : string) : string := rstrip (lstrip s).

(** [str.replace(a, b)] for one-character [a] and [b] *)
Fixpoint replace_char (a b : ascii) (s : string) : string :=
  match s with
  | EmptyString => EmptyString
  | String c t => String (if is_char a c then b else c) (replace_char a b t)
  end.

(** [str.startswith(p)] *)
Fixpoint startswith (p s : string) : bool :=
  match p, s with
  | EmptyString, _ => true
  | String a p', String c s' => Ascii.eqb a c && startswith p' s'
  | String _ _, EmptyString => false
  end.

(** [ch in s] *)
Fixpoint has_char (a : ascii) (s : string) : bool :=
  match s with
  | EmptyString => false
  | String c t => is_char a c || has_char a t
  end.

(** [s.split(ch, 1)] *)
Fixpoint split_once (a : ascii) (s : string) : list string :=
  match s with
  | EmptyString => [EmptyString]
  | String c t =>
      if is_char a c then [EmptyString; t]
      else match split_once a t with
           | x :: rest => String c x :: rest
           | [] => [String c EmptyString]
           end
  end.

(** [sep.join(parts)] *)
Fixpoint join (sep : string) (parts : list string) : string :=
  match parts with
  | [] => EmptyString
  | [x] => x
  | x :: rest => x +:+ sep +:+ join sep rest
  end.

(** Every character of [s] satisfies [P]. *)
Fixpoint all_chars (P : ascii -> bool) (s : string) : bool :=
  match s with
  | EmptyString => true
  | String c t => P c && all_chars P t
  end.

(** ** A backtracking matcher for the module's regular expressions *)

(** Capture groups, most recent binding first. *)
Definition caps := list (nat * string).

Fixpoint cap_get (n : nat) (cs : caps) : option string :=
  match cs with
  | [] => None
  | (m, v) :: rest => if Nat.eqb m n then Some v else cap_get n rest
  end.

Inductive regex :=
| RChr (p : ascii -> bool)          (** one character of a class *)
| RSeq (r1 r2 : regex)
| RAlt (r1 r2 : regex)              (** [r1] is tried first *)
| RStar (p : ascii -> bool)         (** greedy [[...]*] *)
| RLazyStar (p : ascii -> bool)     (** lazy [[...]*?] *)
| REps
| REnd                              (** [$]: end, or before a final newline *)
| RCap (n : nat) (r : regex).       (** capture group [n] *)

Definition ROpt (r : regex) : regex := RAlt r REps.
Definition RPlus (p : ascii -> bool) : regex := RSeq (RChr p) (RStar p).

(** The prefix of [s] consumed when the rest is [s']. *)
Definition consumed (s s' : string) : string :=
  substring 0 (String.length s - String.length s') s.

Fixpoint star_greedy {R} (p : ascii -> bool) (s : string) (cs : caps)
    (k : string -> caps -> option R) : option R :=
  match s with
  | String c t =>
      if p c then
        match star_greedy p t cs k with
        | Some x => Some x
        | None => k s cs
        end
      else k s cs
  | EmptyString => k s cs
  end.

Fixpoint star_lazy {R} (p : ascii -> bool) (s : string) (cs : caps)
    (k : string -> caps -> option R) : option R :=
  match k s cs with
  | Some x => Some x
  | None =>
      match s with
      | String c t => if p c then star_lazy p t cs k else None
      | EmptyString => None
      end
  end.

Definition at_end (s : string) : bool :=
  match s with
  | EmptyString => true
  | String c EmptyString => is_char nl c
  | _ => false
  end.

Fixpoint mtch {R} (r : regex) (s : string) (cs : caps)
    (k : string -> caps -> option R) : option R :=
  match r with
  | RChr p =>
      match s with
      | String c t => if p c then k t cs else None
      | EmptyString => None
      end
  | RSeq r1 r2 => mtch r1 s cs (fun s' cs' => mtch r2 s' cs' k)
  | RAlt r1 r2 =>
      match mtch r1 s cs k with
      | Some x => Some x
      | None => mtch r2 s cs k
      end
  | RStar p => star_greedy p s cs k
  | RLazyStar p => star_lazy p s cs k
  | REps => k s cs
  | REnd => if at_end s then k s cs else None
  | RCap n r1 => mtch r1 s cs (fun s' cs' => k s' ((n, consumed s s') :: cs'))
  end.

(** First match of [r] anchored at the start of [s] ([re.match]). *)
Definition match_at (r : regex) (s : string) : option (string * caps) :=
  mtch r s [] (fun s' cs => Some (s', cs)).

(** The left-to-right scan shared by [findall] and [sub]: each position
    either starts a match or contributes one literal character.  None of
    the module's patterns matches the empty string. *)
Inductive piece :=
| Lit (c : ascii)
| Hit (m : string) (cs : caps).

Fixpoint scan (fuel : nat) (r : regex) (s : string) : list piece :=
  match fuel with
  | O => []
  | S f =>
      let step_one :=
        match s with
        | EmptyString => []
        | String c t => Lit c :: scan f r t
        end in
      match match_at r s with
      | Some (s', cs) =>
          if (String.length s' <? String.length s)%nat then Hit (consumed s s') cs :: scan f r s'
          else Hit EmptyString cs :: step_one
      | None => step_one
      end
  end.

Definition pieces (r : regex) (s : string) : list piece :=
  scan (S (String.length s)) r s.

(** [re.findall] for a pattern without groups: the whole matches. *)
Definition findall (r : regex) (s : string) : list string :=
  flat_map (fun p => match p with Hit m _ => [m] | Lit _ => [] end) (pieces r s).

(** [re.findall] for a pattern with one group: group 1 of each match. *)
Definition findall_group1 (r : regex) (s : string) : list string :=
  flat_map (fun p => match p with
                     | Hit _ cs => [default EmptyString (cap_get 1 cs)]
                     | Lit _ => []
                     end) (pieces r s).

(** [re.sub] with a replacement computed from each match. *)
(** The output of [re.sub]: literal characters kept, each match replaced. *)
Definition render (repl : string -> caps -> string) (ps : list piece) : string :=
  fold_right (fun p acc =>
                match p with
                | Lit c => String c acc
                | Hit m cs => repl m cs +:+ acc
                end) EmptyString ps.

Definition sub (r : regex) (repl : string -> caps -> string) (s : string) : string :=
  render repl (pieces r s).

Definition group1 (m : string) (cs : caps) : string := default EmptyString (cap_get 1 cs).
Definition const_repl (t : string) (m : string) (cs : caps) : string := t.

(** ** The module's patterns *)

Definition is_sign (c : ascii) : bool := is_char "-" c || is_char "+" c.
Definition is_exp (c : ascii) : bool := is_char "e" c || is_char "E" c.
Definition not_in (ds : list ascii) (c : ascii) : bool :=
  negb (existsb (fun d => is_char d c) ds).

(** [NUMERIC_RE = r"[-+]?\d*\.?\d+(?:[eE][-+]?\d+)?"] *)
Definition NUMERIC_RE : regex :=
  RSeq (ROpt (RChr is_sign))
  (RSeq (RStar is_digit)
  (RSeq (ROpt (RChr (is_char ".")))
  (RSeq (RPlus is_digit)
        (ROpt (RSeq (RChr is_exp) (RSeq (ROpt (RChr is_sign)) (RPlus is_digit))))))).

(** [open [^...]+ close] with the inner text as group 1. *)
Definition token_re (op cl : ascii) (excluded : list ascii) : regex :=
  RSeq (RChr (is_char op)) (RSeq (RCap 1 (RPlus (not_in excluded))) (RChr (is_char cl))).

(** [HASH_TOKEN_RE = r"#([^#]+)#"] *)
Definition HASH_TOKEN_RE : regex := token_re "#" "#" ["#"%char].
(** [ANGLE_TOKEN_RE = r"<([^<>]+)>"] *)
Definition ANGLE_TOKEN_RE : regex := token_re "<" ">" ["<"%char; ">"%char].
(** [BRACE_TOKEN_RE = r"\{([^{}]+)\}"] *)
Definition BRACE_TOKEN_RE : regex := token_re "{" "}" ["{"%char; "}"%char].
(** [PAREN_TOKEN_RE = r"\(([^()]+)\)"] *)
Definition PAREN_TOKEN_RE : regex := token_re "(" ")" ["("%char; ")"%char].

(** [r"\s+"] *)
Definition WS_RE : regex := RPlus is_space.

(** The pattern of [_parse_value], written here with spaces around its
    second star: [^(?P<body>.*?)(?:\s*\{(?P<context>[^}] * )\})?$].  The
    body is group 1, the context group 2; [.] is any character but a
    newline. *)
Definition BODY_RE : regex :=
  RSeq (RCap 1 (RLazyStar (not_in [nl])))
  (RSeq (ROpt (RSeq (RStar is_space)
               (RSeq (RChr (is_char "{"))
               (RSeq (RCap 2 (RStar (not_in ["}"%char])))
                     (RChr (is_char "}"))))))
        REnd).

(** ** [float()] and [_parse_value] *)

(** A float as the exact decimal [m * 10 ^ e] that Python rounds to the
    nearest double; equal literals give equal values. *)
Definition dec : Type := (Z * Z)%type.

Fixpoint take_digits (s : string) : string * string :=
  match s with
  | String c t =>
      if is_digit c then let '(d, r) := take_digits t in (String c d, r)
      else (EmptyString, s)
  | EmptyString => (EmptyString, EmptyString)
  end.

Fixpoint digits_value (acc : Z) (s : string) : Z :=
  match s with
  | EmptyString => acc
  | String c t => digits_value (10 * acc + Z.of_nat (code c - 48))%Z t
  end.

(** An optional sign: [true] for a minus. *)
Definition take_sign (s : string) : bool * string :=
  match s with
  | String c t =>
      if is_char "-" c then (true, t) else if is_char "+" c then (false, t) else (false, s)
  | EmptyString => (false, s)
  end.

(** The fraction after the integer digits: [.digits], or nothing. *)
Definition float_frac (t2 : string) : string * string :=
  match t2 with
  | String c t2' => if is_char "." c then take_digits t2' else (EmptyString, t2)
  | EmptyString => (EmptyString, EmptyString)
  end.

(** The exponent's value, and whether the rest is empty or a well-formed
    exponent. *)
Definition float_exp (t3 : string) : Z * bool :=
  match t3 with
  | EmptyString => (0%Z, true)
  | String c t4 =>
      if is_exp c then
        let '(eneg, t5) := take_sign t4 in
        let '(ed, t6) := take_digits t5 in
        ((if eneg then - digits_value 0 ed else digits_value 0 ed)%Z,
         negb (String.eqb ed EmptyString) && String.eqb t6 EmptyString)
      else (0%Z, false)
  end.

(** The unsigned part: at least one digit, with an optional point, then an
    optional exponent. *)
Definition float_body (neg : bool) (t1 : string) : result dec :=
  let '(ip, t2) := take_digits t1 in
  let '(fp, t3) := float_frac t2 in
  if String.eqb (ip +:+ fp) EmptyString then Raise ValueError else
  let '(ex, ok) := float_exp t3 in
  if ok then
    let m := digits_value 0 (ip +:+ fp) in
    Ok ((if neg then - m else m)%Z, (ex - Z.of_nat (String.length fp))%Z)
  else Raise ValueError.

(** Python's [float(s)] for a [str] argument, on its decimal syntax:
    surrounding whitespace, a sign, digits with an optional point (at least
    one digit), an optional exponent; anything else raises [ValueError].
    The spellings of infinity and nan and the [_] digit separators are left
    out: the tokens of [NUMERIC_RE] never contain them. *)
Definition py_float (s : string) : result dec :=
  let '(neg, t1) := take_sign (py_strip s) in float_body neg t1.

Fixpoint last_str (l : list string) : string :=
  match l with
  | [] => EmptyString
  | [x] => x
  | _ :: rest => last_str rest
  end.

(** The [try: low = float(numbers[0]); high = float(numbers[-1])
    except ValueError: low = high = None] block, for any conversion
    [float]. *)
Definition low_high (float : string -> result dec) (numbers : list string)
    : result (option dec * option dec) :=
  match numbers with
  | [] => Ok (None, None)
  | n0 :: _ =>
      match float n0 with
      | Ok l =>
          match float (last_str numbers) with
          | Ok h => Ok (Some l, Some h)
          | Raise ValueError => Ok (None, None)
          | Raise e => Raise e
          end
      | Raise ValueError => Ok (None, None)
      | Raise e => Raise e
      end
  end.

Definition parsed : Type :=
  (option dec * option dec * option string * option string)%type.

(** The body and the trailing [{...}] context of a stripped value. *)
Definition body_context (value : string) : string * option string :=
  match match_at BODY_RE value with
  | Some (_, cs) => (py_strip (default EmptyString (cap_get 1 cs)), cap_get 2 cs)
  | None => (value, None)
  end.

(** The unit: the body without its numbers, hyphens as spaces, whitespace
    collapsed and stripped; [None] when that is empty. *)
Definition unit_of (body : string) : option string :=
  let u := sub NUMERIC_RE (const_repl EmptyString) body in
  let u := replace_char "-" " " u in
  let u := py_strip (sub WS_RE (const_repl " ") u) in
  if String.eqb u EmptyString then None else Some u.

(** [_parse_value], for a given [float]. *)
Definition parse_value_with (float : string -> result dec) (value : string) : result parsed :=
  let value := py_strip value in
  let '(body, context) := body_context value in
  let numbers := findall NUMERIC_RE body in
  '(low, high) ← low_high float numbers;
  let unit := match numbers with [] => None | _ => unit_of body end in
  Ok (low, high, unit, context).

Definition parse_value : string -> result parsed := parse_value_with py_float.

(** ** [_strip_markup] and the token lists of [_flush_text_record] *)

Definition strip_markup (value : string) : string :=
  let result := sub HASH_TOKEN_RE group1 value in
  let result := sub ANGLE_TOKEN_RE (const_repl EmptyString) result in
  let result := sub BRACE_TOKEN_RE group1 result in
  let result := sub PAREN_TOKEN_RE group1 result in
  let result := sub WS_RE (const_repl " ") result in
  py_strip result.

Definition protein_tokens (value : string) : list string :=
  findall_group1 HASH_TOKEN_RE value.
Definition reference_tokens (value : string) : list string :=
  findall_group1 ANGLE_TOKEN_RE value.
Definition qualifier_tokens (value : string) : list string :=
  findall_group1 BRACE_TOKEN_RE value ++ findall_group1 PAREN_TOKEN_RE value.

(** ** The flat-file scanner: [_iter_text_records] and [_flush_text_record] *)

Definition TEXT_FIELD_LABELS : list (string * string) :=
  [("AC", "activating compound"); ("AP", "application"); ("CF", "cofactor");
   ("CL", "cloned"); ("CR", "crystallization"); ("EN", "engineering");
   ("EXP", "expression"); ("GI", "general information");
   ("GS", "general stability"); ("IC50", "IC50 value"); ("ID", "EC class");
   ("IN", "inhibitor"); ("KKM", "kcat/KM value"); ("KI", "Ki value");
   ("KM", "Km value"); ("LO", "localization"); ("ME", "metals/ions");
   ("MW", "molecular weight"); ("NSP", "natural substrates/products");
   ("OS", "oxygen stability"); ("OSS", "organic solvent stability");
   ("PHO", "pH optimum"); ("PHR", "pH range"); ("PHS", "pH stability");
   ("PI", "isoelectric point"); ("PM", "post translational modification");
   ("PR", "protein"); ("PU", "purification"); ("RE", "reaction");
   ("RF", "reference"); ("REN", "renatured"); ("RN", "recommended name");
   ("RT", "reaction type"); ("SA", "specific activity"); ("SN", "synonym");
   ("SP", "substrate/product"); ("SS", "storage stability");
   ("ST", "source tissue"); ("SU", "subunits"); ("SY", "systematic name");
   ("TN", "turnover number"); ("TO", "temperature optimum");
   ("TR", "temperature range"); ("TS", "temperature stability");
   ("BR", "BRENDA release")].

Fixpoint assoc_str {V} (k : string) (l : list (string * V)) : option V :=
  match l with
  | [] => None
  | (k', v) :: rest => if String.eqb k' k then Some v else assoc_str k rest
  end.

(** [_join] on a list of strings (the token lists of a text record). *)
Definition join_tokens (l : list string) : option string :=
  match l with [] => None | _ => Some (join ";" l) end.

(** One row of the [text_facts] table. *)
Record text_row := {
  t_ec : string;
  t_code : string;
  t_label : option string;
  t_value : string;
  t_cleaned : string;
  t_proteins : option string;
  t_references : option string;
  t_qualifiers : option string
}.

Definition nonempty (s : string) : bool := negb (String.eqb s EmptyString).

Definition flush_text_record (ec code : option string) (buffer : list string)
    : list text_row :=
  match ec, code, buffer with
  | Some e, Some c, _ :: _ =>
      let value := py_strip (join " " (map py_strip (filter nonempty buffer))) in
      if String.eqb value EmptyString then []
      else [{| t_ec := e; t_code := c; t_label := assoc_str c TEXT_FIELD_LABELS;
               t_value := value; t_cleaned := strip_markup value;
               t_proteins := join_tokens (protein_tokens value);
               t_references := join_tokens (reference_tokens value);
               t_qualifiers := join_tokens (qualifier_tokens value) |}]
  | _, _, _ => []
  end.

(** The scanner's variables [current_ec], [current_code] and [buffer]. *)
Record tstate := { current_ec : option string; current_code : option string;
                   buffer : list string }.

Definition tstate0 : tstate := {| current_ec := None; current_code := None; buffer := [] |}.

Definition flush_st (st : tstate) : list text_row :=
  flush_text_record (current_ec st) (current_code st) (buffer st).

(** The body of the [for raw_line in handle] loop, on
    [line = raw_line.rstrip("\n")]. *)
Definition ID_TAB : string := String "I" (String "D" (String tab EmptyString)).

Definition text_step (st : tstate) (line : string) : tstate * list text_row :=
  if String.eqb line EmptyString then (st, [])
  else if startswith "///" line then (tstate0, flush_st st)
  else if startswith ID_TAB line then
    ({| current_ec := Some (py_strip (nth 1 (split_once tab line) EmptyString));
        current_code := None; buffer := [] |}, flush_st st)
  else match current_ec st with
  | None => (st, [])
  | Some ec =>
      if startswith "*" line then (st, [])
      else if startswith (String tab EmptyString) line || startswith " " line then
        match current_code st with
        | Some _ => ({| current_ec := current_ec st; current_code := current_code st;
                        buffer := buffer st ++ [py_strip line] |}, [])
        | None => (st, [])
        end
      else if has_char tab line then
        let parts := split_once tab line in
        let code := py_strip (nth 0 parts EmptyString) in
        let value := py_strip (nth 1 parts EmptyString) in
        if String.eqb code EmptyString then (st, [])
        else
          let out := match current_code st with Some _ => flush_st st | None => [] end in
          ({| current_ec := current_ec st; current_code := Some code;
              buffer := if String.eqb value EmptyString then [] else [value] |}, out)
      else
        (* a section heading resets the current field *)
        ({| current_ec := current_ec st; current_code := None; buffer := [] |}, flush_st st)
  end.

Fixpoint text_steps (st : tstate) (lines : list string) : tstate * list text_row :=
  match lines with
  | [] => (st, [])
  | l :: rest =>
      let '(st1, out1) := text_step st l in
      let '(st2, out2) := text_steps st1 rest in
      (st2, out1 ++ out2)
  end.

(** The records of a file given as its lines (line ends removed): the loop,
    then the final flush. *)
Definition scan_text_lines (lines : list string) : list text_row :=
  let '(st, out) := text_steps tstate0 lines in out ++ flush_st st.

(** Text mode with [newline=None]: [\r\n] and [\r] read as [\n]. *)
Fixpoint translate_newlines (s : string) : string :=
  match s with
  | EmptyString => EmptyString
  | String c t =>
      if is_char cr c then
        match t with
        | String d t' => if is_char nl d then String nl (translate_newlines t')
                         else String nl (translate_newlines t)
        | EmptyString => String nl EmptyString
        end
      else String c (translate_newlines t)
  end.

Fixpoint split_nl (s : string) : list string :=
  match s with
  | EmptyString => [EmptyString]
  | String c t =>
      if is_char nl c then EmptyString :: split_nl t
      else match split_nl t with
           | x :: rest => String c x :: rest
           | [] => [String c EmptyString]
           end
  end.

(** The lines a text-mode file iteration yields, each with its final
    [\n] removed ([raw_line.rstrip("\n")]). *)
Definition file_lines (text : string) : list string :=
  let ps := split_nl (translate_newlines text) in
  if String.eqb (last_str ps) EmptyString then removelast ps else ps.

(** [_iter_text_records] on the decoded contents of the file (the
    [utf-8-sig] codec has removed a byte-order mark). *)
Definition iter_text_records (text : string) : list text_row :=
  scan_text_lines (file_lines text).

(** ** Decoded JSON values and the Python operations the flattener uses *)

(** The values [ijson] yields: JSON integers are [int], other JSON numbers
    [decimal.Decimal] (kept as their literal); an object is a [dict] with
    distinct keys in document order. *)
#[local] Set Warnings "-register-all".
Inductive pyval :=
| PNone
| PBool (b : bool)
| PInt (z : Z)
| PDec (lit : string)
| PStr (s : string)
| PList (l : list pyval)
| PDict (kvs : list (string * pyval)).

(** A [Decimal] is false when every digit of its mantissa is 0. *)
Fixpoint mantissa_zero (lit : string) : bool :=
  match lit with
  | EmptyString => true
  | String c t =>
      if is_exp c then true
      else if is_digit c then Nat.eqb (code c) 48 && mantissa_zero t
      else mantissa_zero t
  end.

(** [bool(v)] *)
Definition truthy (v : pyval) : bool :=
  match v with
  | PNone => false
  | PBool b => b
  | PInt z => negb (Z.eqb z 0)
  | PDec lit => negb (mantissa_zero lit)
  | PStr s => nonempty s
  | PList l => match l with [] => false | _ => true end
  | PDict kvs => match kvs with [] => false | _ => true end
  end.

(** [a or b] *)
Definition py_or (a b : pyval) : pyval := if truthy a then a else b.

(** [d.get(k)]: [AttributeError] when [d] is not a [dict]. *)
Definition py_get (d : pyval) (k : string) : result pyval :=
  match d with
  | PDict kvs => Ok (default PNone (assoc_str k kvs))
  | _ => Raise AttributeError
  end.

(** [d.items()] *)
Definition py_items (d : pyval) : result (list (string * pyval)) :=
  match d with
  | PDict kvs => Ok kvs
  | _ => Raise AttributeError
  end.

(** [len(v)] *)
Definition py_len (v : pyval) : result nat :=
  match v with
  | PStr s => Ok (String.length s)
  | PList l => Ok (length l)
  | PDict kvs => Ok (length kvs)
  | _ => Raise TypeError
  end.

(** [v[0]] (JSON object keys are strings, so a [dict] has no key [0]). *)
Definition py_index0 (v : pyval) : result pyval :=
  match v with
  | PList (x :: _) => Ok x
  | PStr (String c _) => Ok (PStr (String c EmptyString))
  | PDict _ => Raise KeyError
  | PList [] | PStr EmptyString => Raise KeyError
  | _ => Raise TypeError
  end.

Fixpoint uint_digits (u : Decimal.uint) : string :=
  match u with
  | Decimal.Nil => EmptyString
  | Decimal.D0 u => String "0" (uint_digits u)
  | Decimal.D1 u => String "1" (uint_digits u)
  | Decimal.D2 u => String "2" (uint_digits u)
  | Decimal.D3 u => String "3" (uint_digits u)
  | Decimal.D4 u => String "4" (uint_digits u)
  | Decimal.D5 u => String "5" (uint_digits u)
  | Decimal.D6 u => String "6" (uint_digits u)
  | Decimal.D7 u => String "7" (uint_digits u)
  | Decimal.D8 u => String "8" (uint_digits u)
  | Decimal.D9 u => String "9" (uint_digits u)
  end.

(** [str(n)] for an [int] *)
Definition z_str (z : Z) : string :=
  match Z.to_int z with
  | Decimal.Pos u => uint_digits u
  | Decimal.Neg u => String "-" (uint_digits u)
  end.

Definition hex_digit (n : nat) : ascii :=
  ascii_of_nat (if (n <? 10)%nat then 48 + n else 87 + n)%nat.
Definition hex2 (n : nat) : string :=
  String (hex_digit (n / 16)) (String (hex_digit (n mod 16)) EmptyString).

Definition dquote : ascii := ascii_of_nat 34.
Definition bslash : ascii := ascii_of_nat 92.

(** The characters [repr] keeps as they are, below 256. *)
Definition repr_printable (n : nat) : bool :=
  (((32 <=? n) && (n <=? 126)) || ((161 <=? n) && negb (n =? 173)))%nat.

Fixpoint repr_chars (q : ascii) (s : string) : string :=
  match s with
  | EmptyString => EmptyString
  | String c t =>
      let n := code c in
      let e :=
        if is_char q c || is_char bslash c then String bslash (String c EmptyString)
        else if (n =? 9)%nat then String bslash "t"
        else if (n =? 10)%nat then String bslash "n"
        else if (n =? 13)%nat then String bslash "r"
        else if repr_printable n then String c EmptyString
        else String bslash (String "x" (hex2 n)) in
      e +:+ repr_chars q t
  end.

(** [repr(s)] for a [str] *)
Definition repr_str (s : string) : string :=
  let q := if has_char "'" s && negb (has_char dquote s) then dquote else "'"%char in
  String q (repr_chars q s +:+ String q EmptyString).

(** [repr(v)], which is also [str(v)] for a list or a dict. *)
Fixpoint py_repr (v : pyval) : string :=
  match v with
  | PNone => "None"
  | PBool b => if b then "True" else "False"
  | PInt z => z_str z
  | PDec lit => "Decimal(" +:+ repr_str lit +:+ ")"
  | PStr s => repr_str s
  | PList l => "[" +:+ join ", " (map py_repr l) +:+ "]"
  | PDict kvs =>
      "{" +:+ join ", " (map (fun kv => repr_str (fst kv) +:+ ": " +:+ py_repr (snd kv)) kvs)
      +:+ "}"
  end.

(** [str(v)] *)
Definition py_str (v : pyval) : string :=
  match v with
  | PStr s => s
  | PDec lit => lit
  | _ => py_repr v
  end.

(** The string escapes of [json.dumps(..., ensure_ascii=False)]. *)
Fixpoint json_chars (s : string) : string :=
  match s with
  | EmptyString => EmptyString
  | String c t =>
      let n := code c in
      let e :=
        if is_char dquote c || is_char bslash c then String bslash (String c EmptyString)
        else if (n =? 10)%nat then String bslash "n"
        else if (n =? 13)%nat then String bslash "r"
        else if (n =? 9)%nat then String bslash "t"
        else if (n =? 8)%nat then String bslash "b"
        else if (n =? 12)%nat then String bslash "f"
        else if (n <? 32)%nat then String bslash ("u00" +:+ hex2 n)
        else String c EmptyString in
      e +:+ json_chars t
  end.

Definition json_quote (s : string) : string :=
  String dquote (json_chars s +:+ String dquote EmptyString).

(** [json.dumps(v, ensure_ascii=False)]: a [Decimal] is not serializable. *)
Fixpoint json_dumps (v : pyval) : result string :=
  match v with
  | PNone => Ok "null"
  | PBool b => Ok (if b then "true" else "false")
  | PInt z => Ok (z_str z)
  | PDec _ => Raise TypeError
  | PStr s => Ok (json_quote s)
  | PList l =>
      parts ← (fix go (l : list pyval) : result (list string) :=
                 match l with
                 | [] => Ok []
                 | x :: rest => s ← json_dumps x; ss ← go rest; Ok (s :: ss)
                 end) l;
      Ok ("[" +:+ join ", " parts +:+ "]")
  | PDict kvs =>
      parts ← (fix go (kvs : list (string * pyval)) : result (list string) :=
                 match kvs with
                 | [] => Ok []
                 | (k, x) :: rest =>
                     s ← json_dumps x; ss ← go rest; Ok ((json_quote k +:+ ": " +:+ s) :: ss)
                 end) kvs;
      Ok ("{" +:+ join ", " parts +:+ "}")
  end.

(** ** Rows: [_build_enzyme_row], the protein row, [_build_fact_row] *)

(** One row of the [enzymes] table. *)
Record enzyme_row := {
  e_ec : string;
  e_enzyme_id : pyval;
  e_recommended_name : pyval;
  e_systematic_name : pyval;
  e_reaction_summary : pyval;
  e_protein_count : nat;
  e_synonym_count : nat;
  e_reaction_count : nat;
  e_km_count : nat;
  e_turnover_count : nat;
  e_inhibitor_count : nat
}.

(** [entry.get(key) or default] *)
Definition get_or (entry : pyval) (key : string) (dflt : pyval) : result pyval :=
  v ← py_get entry key; Ok (py_or v dflt).

Definition build_enzyme_row (ec : string) (entry : pyval) : result enzyme_row :=
  proteins ← get_or entry "protein" (PDict []);
  synonyms ← get_or entry "synonyms" (PList []);
  reactions ← get_or entry "reaction" (PList []);
  reaction_summary ←
    (if truthy reactions then
       first ← py_index0 reactions;
       match first with
       | PDict _ => py_get first "value"
       | PStr _ => Ok first
       | _ => Ok PNone
       end
     else Ok PNone);
  enzyme_id ← py_get entry "id";
  recommended_name ← py_get entry "recommended_name";
  systematic_name ← py_get entry "systematic_name";
  np ← py_len proteins;
  ns ← py_len synonyms;
  nr ← py_len reactions;
  nk ← (v ← get_or entry "km_value" (PList []); py_len v);
  nt ← (v ← get_or entry "turnover_number" (PList []); py_len v);
  ni ← (v ← get_or entry "inhibitor" (PList []); py_len v);
  Ok {| e_ec := ec; e_enzyme_id := enzyme_id; e_recommended_name := recommended_name;
        e_systematic_name := systematic_name; e_reaction_summary := reaction_summary;
        e_protein_count := np; e_synonym_count := ns; e_reaction_count := nr;
        e_km_count := nk; e_turnover_count := nt; e_inhibitor_count := ni |}.

(** One row of the [proteins] table.  The [reference_ids] column, the
    [_join] of [detail.get("references")], is left out: [_join] never
    raises and no property below reads it. *)
Record protein_row := {
  p_ec : string;
  p_protein_id : string;
  p_organism : pyval;
  p_comment : pyval;
  p_raw_json : string
}.

Definition build_protein_row (ec protein_id : string) (detail : pyval) : result protein_row :=
  organism ← py_get detail "organism";
  comment ← py_get detail "comment";
  _ ← py_get detail "references";
  raw ← json_dumps detail;
  Ok {| p_ec := ec; p_protein_id := protein_id; p_organism := organism;
        p_comment := comment; p_raw_json := raw |}.

(** One row of the [enzyme_facts] table; the [proteins] and
    [reference_ids] columns ([_join] of the payload's lists) are left out
    for the same reason. *)
Record fact_row := {
  f_ec : string;
  f_category : string;
  f_value : pyval;
  f_low : option dec;
  f_high : option dec;
  f_unit : option string;
  f_context : option string;
  f_comment : pyval;
  f_raw_json : string
}.

(** [for key in ("organism", "substrate", "ligand", "tissue"): if
    payload.get(key): context = str(payload[key]); break] *)
Fixpoint context_fallback (payload : pyval) (keys : list string) : result (option string) :=
  match keys with
  | [] => Ok None
  | k :: rest =>
      v ← py_get payload k;
      if truthy v then Ok (Some (py_str v)) else context_fallback payload rest
  end.

Definition build_fact_row (ec category : string) (payload : pyval) : result fact_row :=
  value ← py_get payload "value";
  comment ← py_get payload "comment";
  parsed ← (match value with
            | PStr v => parse_value v
            | _ => Ok (None, None, None, None)
            end);
  let '(low, high, unit, context) := parsed in
  raw_json ← json_dumps payload;
  context ← (match context with
             | Some _ => Ok context
             | None => context_fallback payload ["organism"; "substrate"; "ligand"; "tissue"]
             end);
  Ok {| f_ec := ec; f_category := category; f_value := value; f_low := low;
        f_high := high; f_unit := unit; f_context := context; f_comment := comment;
        f_raw_json := raw_json |}.

(** ** The store, the batch buffers and the run *)

Definition BATCH_SIZE : nat := 500.

(** One [executemany] bulk insert. *)
Inductive batch :=
| BEnzyme (rows : list enzyme_row)
| BProtein (rows : list protein_row)
| BFact (rows : list fact_row)
| BText (rows : list text_row).

(** The variables of [ingest]: the inserts done so far (the store, oldest
    first), the four row buffers, the two counters and the counts. *)
Record run := {
  written : list batch;
  enzyme_rows : list enzyme_row;
  protein_rows : list protein_row;
  fact_rows : list fact_row;
  text_rows : list text_row;
  stats : list (string * nat);
  text_stats : list (string * nat);
  enzyme_count : nat;
  protein_count : nat;
  text_fact_count : nat
}.

Definition run0 : run :=
  {| written := []; enzyme_rows := []; protein_rows := []; fact_rows := [];
     text_rows := []; stats := []; text_stats := []; enzyme_count := 0;
     protein_count := 0; text_fact_count := 0 |}.

(** [counter[k] += 1] on a [Counter] kept in insertion order. *)
Fixpoint bump (k : string) (c : list (string * nat)) : list (string * nat) :=
  match c with
  | [] => [(k, 1%nat)]
  | (k', n) :: rest => if String.eqb k' k then (k', S n) :: rest else (k', n) :: bump k rest
  end.

Definition set_written (w : list batch) (s : run) : run :=
  {| written := w; enzyme_rows := enzyme_rows s; protein_rows := protein_rows s;
     fact_rows := fact_rows s; text_rows := text_rows s; stats := stats s;
     text_stats := text_stats s; enzyme_count := enzyme_count s;
     protein_count := protein_count s; text_fact_count := text_fact_count s |}.
Definition set_enzyme_rows (l : list enzyme_row) (s : run) : run :=
  {| written := written s; enzyme_rows := l; protein_rows := protein_rows s;
     fact_rows := fact_rows s; text_rows := text_rows s; stats := stats s;
     text_stats := text_stats s; enzyme_count := enzyme_count s;
     protein_count := protein_count s; text_fact_count := text_fact_count s |}.
Definition set_protein_rows (l : list protein_row) (s : run) : run :=
  {| written := written s; enzyme_rows := enzyme_rows s; protein_rows := l;
     fact_rows := fact_rows s; text_rows := text_rows s; stats := stats s;
     text_stats := text_stats s; enzyme_count := enzyme_count s;
     protein_count := protein_count s; text_fact_count := text_fact_count s |}.
Definition set_fact_rows (l : list fact_row) (s : run) : run :=
  {| written := written s; enzyme_rows := enzyme_rows s; protein_rows := protein_rows s;
     fact_rows := l; text_rows := text_rows s; stats := stats s;
     text_stats := text_stats s; enzyme_count := enzyme_count s;
     protein_count := protein_count s; text_fact_count := text_fact_count s |}.
Definition set_text_rows (l : list text_row) (s : run) : run :=
  {| written := written s; enzyme_rows := enzyme_rows s; protein_rows := protein_rows s;
     fact_rows := fact_rows s; text_rows := l; stats := stats s;
     text_stats := text_stats s; enzyme_count := enzyme_count s;
     protein_count := protein_count s; text_fact_count := text_fact_count s |}.
Definition set_counts (st ts : list (string * nat)) (ne np nt : nat) (s : run) : run :=
  {| written := written s; enzyme_rows := enzyme_rows s; protein_rows := protein_rows s;
     fact_rows := fact_rows s; text_rows := text_rows s; stats := st;
     text_stats := ts; enzyme_count := ne; protein_count := np; text_fact_count := nt |}.

(** State and exceptions: a raised exception keeps the state reached so
    far (what was inserted stays inserted). *)
Definition M (A : Type) : Type := run -> result A * run.

Global Instance M_ret : MRet M := fun A a s => (Ok a, s).
Global Instance M_bind : MBind M := fun A B f m s =>
  match m s with
  | (Ok a, s') => f a s'
  | (Raise e, s') => (Raise e, s')
  end.

Definition lift {A} (r : result A) : M A := fun s => (r, s).
Definition modify (f : run -> run) : M unit := fun s => (Ok tt, f s).
Definition get_run : M run := fun s => (Ok s, s).

Fixpoint for_each {A} (l : list A) (body : A -> M unit) : M unit :=
  match l with
  | [] => mret tt
  | x :: rest => _ ← body x; for_each rest body
  end.

(** [_flush(conn, rows, inserter)]: one bulk insert of a non-empty buffer,
    which is then cleared. *)
Definition flush_enzymes : M unit := modify (fun s =>
  match enzyme_rows s with
  | [] => s
  | rows => set_enzyme_rows [] (set_written (written s ++ [BEnzyme rows]) s)
  end).
Definition flush_proteins : M unit := modify (fun s =>
  match protein_rows s with
  | [] => s
  | rows => set_protein_rows [] (set_written (written s ++ [BProtein rows]) s)
  end).
Definition flush_facts : M unit := modify (fun s =>
  match fact_rows s with
  | [] => s
  | rows => set_fact_rows [] (set_written (written s ++ [BFact rows]) s)
  end).
Definition flush_texts : M unit := modify (fun s =>
  match text_rows s with
  | [] => s
  | rows => set_text_rows [] (set_written (written s ++ [BText rows]) s)
  end).

(** [fact_rows.append(_build_fact_row(...)); stats[key] += 1] *)
Definition emit_fact (ec key : string) (payload : pyval) : M unit :=
  row ← lift (build_fact_row ec key payload);
  modify (fun s => set_counts (bump key (stats s)) (text_stats s) (enzyme_count s)
                     (protein_count s) (text_fact_count s)
                     (set_fact_rows (fact_rows s ++ [row]) s)).

Definition BASE_FIELDS : list string := ["id"; "recommended_name"; "systematic_name"].
Definition SPECIAL_KEYS : list string := ["protein"].

Definition value_payload (s : string) : pyval := PDict [("value", PStr s)].

(** One iteration of [for key, items in entry.items()]. *)
Definition ingest_category (ec key : string) (items : pyval) : M unit :=
  if existsb (String.eqb key) (BASE_FIELDS ++ SPECIAL_KEYS) then mret tt
  else if negb (truthy items) then mret tt
  else match items with
  | PStr _ | PInt _ | PBool _ => emit_fact ec key (value_payload (py_str items))
  | PDict _ => emit_fact ec key items
  | PList l =>
      for_each l (fun item =>
        payload ← lift (match item with
                        | PStr _ | PInt _ | PBool _ => Ok (value_payload (py_str item))
                        | PDict _ => Ok item
                        | _ => d ← json_dumps item; Ok (value_payload d)
                        end);
        emit_fact ec key payload)
  | _ => d ← lift (json_dumps items); emit_fact ec key (value_payload d)
  end.

(** The three [if len(...) >= BATCH_SIZE: _flush(...)] checks that end the
    body of the entry loop. *)
Definition flush_full_json : M unit :=
  s ← get_run;
  _ ← (if (BATCH_SIZE <=? length (enzyme_rows s))%nat then flush_enzymes else mret tt);
  s ← get_run;
  _ ← (if (BATCH_SIZE <=? length (protein_rows s))%nat then flush_proteins else mret tt);
  s ← get_run;
  if (BATCH_SIZE <=? length (fact_rows s))%nat then flush_facts else mret tt.

(** The body of [for ec_number, entry in _iter_entries(handle)]. *)
Definition ingest_entry (ec : string) (entry : pyval) : M unit :=
  _ ← modify (fun s => set_counts (stats s) (text_stats s) (S (enzyme_count s))
                         (protein_count s) (text_fact_count s) s);
  row ← lift (build_enzyme_row ec entry);
  _ ← modify (fun s => set_enzyme_rows (enzyme_rows s ++ [row]) s);
  proteins ← lift (get_or entry "protein" (PDict []));
  pitems ← lift (py_items proteins);
  _ ← for_each pitems (fun kv =>
        prow ← lift (build_protein_row ec (fst kv) (snd kv));
        modify (fun s => set_counts (stats s) (text_stats s) (enzyme_count s)
                           (S (protein_count s)) (text_fact_count s)
                           (set_protein_rows (protein_rows s ++ [prow]) s)));
  kvs ← lift (py_items entry);
  _ ← for_each kvs (fun kv => ingest_category ec (fst kv) (snd kv));
  flush_full_json.

(** The JSON pass: the entry loop, then the three final flushes. *)
Definition json_pass (entries : list (string * pyval)) : M unit :=
  _ ← for_each entries (fun kv => ingest_entry (fst kv) (snd kv));
  _ ← flush_enzymes;
  _ ← flush_proteins;
  flush_facts.

(** The body of the text loop: buffer the record, count it, flush a full
    buffer. *)
Definition text_record (record : text_row) : M unit :=
  _ ← modify (fun s => set_counts (stats s) (bump (t_code record) (text_stats s))
                         (enzyme_count s) (protein_count s) (S (text_fact_count s))
                         (set_text_rows (text_rows s ++ [record]) s));
  s ← get_run;
  if (BATCH_SIZE <=? length (text_rows s))%nat then flush_texts else mret tt.

(** The text pass over the records of the flat file. *)
Definition text_pass (records : list text_row) : M unit :=
  _ ← for_each records text_record;
  flush_texts.

(** ** [ingest] over a file system *)

(** A file: its text and, when that text is a JSON document, the document
    [ijson] decodes; or the SQLite store with the inserts it holds. *)
Inductive file :=
| FFile (text : string) (doc : option pyval)
| FDb (inserts : list batch).

(** [ijson.kvitems(handle, "data")]: the pairs of the top-level ["data"]
    object.  A file that is not a JSON document raises (here before its
    first entry). *)
Definition read_entries (f : option file) : result (list (string * pyval)) :=
  match f with
  | Some (FFile _ (Some (PDict top))) =>
      Ok (match assoc_str "data" top with Some (PDict kvs) => kvs | _ => [] end)
  | Some (FFile _ (Some _)) => Ok []
  | Some (FFile _ None) | Some (FDb _) => Raise JSONError
  | None => Raise (FileNotFoundError EmptyString)
  end.

(** [path.open("r", encoding="utf-8-sig")]: the store's binary pages do
    not decode. *)
Definition read_text (f : option file) : result string :=
  match f with
  | Some (FFile text _) => Ok text
  | Some (FDb _) => Raise UnicodeDecodeError
  | None => Raise (FileNotFoundError EmptyString)
  end.

Record ingestion_stats := {
  s_enzyme_count : nat;
  s_fact_count : nat;
  s_protein_count : nat;
  s_category_counts : list (string * nat);
  s_text_fact_count : nat;
  s_text_field_counts : list (string * nat)
}.

Definition stats_of (s : run) : ingestion_stats :=
  {| s_enzyme_count := enzyme_count s;
     s_fact_count := fold_right (fun kv n => snd kv + n)%nat 0%nat (stats s);
     s_protein_count := protein_count s;
     s_category_counts := stats s;
     s_text_fact_count := text_fact_count s;
     s_text_field_counts := text_stats s |}.

(** [ingest(json_path, db_path, txt_path)], paths taken as already
    resolved.  The existence checks come first; then the old store is
    unlinked and a new one created; the JSON pass and the text pass write
    into it.  Schema and index creation add no rows and are not shown. *)
Definition ingest (fs : gmap string file) (json_path db_path : string)
    (txt_path : option string) : result ingestion_stats * gmap string file :=
  match fs !! json_path with
  | None => (Raise (FileNotFoundError json_path), fs)
  | Some _ =>
      let missing_text :=
        match txt_path with
        | Some p => match fs !! p with None => Some p | Some _ => None end
        | None => None
        end in
      match missing_text with
      | Some p => (Raise (FileNotFoundError p), fs)
      | None =>
        let fs1 := <[db_path := FDb []]> (delete db_path fs) in
        let body : M ingestion_stats :=
          entries ← lift (read_entries (fs1 !! json_path));
          _ ← json_pass entries;
          _ ← (match txt_path with
               | Some p => text ← lift (read_text (fs1 !! p));
                           text_pass (iter_text_records text)
               | None => mret tt
               end);
          s ← get_run;
          mret (stats_of s) in
        let '(r, s) := body run0 in
        (r, <[db_path := FDb (written s)]> fs1)
      end
  end.

(** ** Views used by the statements *)

(** The rows of the store as (table, EC number), in the order written. *)
Definition batch_rows (b : batch) : list (string * string) :=
  match b with
  | BEnzyme rows => map (fun r => ("enzymes", e_ec r)) rows
  | BProtein rows => map (fun r => ("proteins", p_ec r)) rows
  | BFact rows => map (fun r => ("enzyme_facts", f_ec r)) rows
  | BText rows => map (fun r => ("text_facts", t_ec r)) rows
  end.

Definition row_log (w : list batch) : list (string * string) := flat_map batch_rows w.

(** The number of rows of each bulk insert into [enzyme_facts] and into
    [text_facts]. *)
Definition fact_batch_sizes (w : list batch) : list nat :=
  flat_map (fun b => match b with BFact rows => [length rows] | _ => [] end) w.
Definition text_batch_sizes (w : list batch) : list nat :=
  flat_map (fun b => match b with BText rows => [length rows] | _ => [] end) w.

(** The store an [ingest] call leaves at [db_path]. *)
Definition store_at (fs : gmap string file) (db_path : string) : list batch :=
  match fs !! db_path with Some (FDb w) => w | _ => [] end.

(** Batch sizes the spec describes for [n] rows: full batches of
    [BATCH_SIZE], then the remainder if any. *)
Definition chunk_sizes (n : nat) : list nat :=
  repeat BATCH_SIZE (n / BATCH_SIZE) ++
  (if (n mod BATCH_SIZE =? 0)%nat then [] else [n mod BATCH_SIZE]).

(** The six denormalized counts of an Enzyme row. *)
Definition enzyme_counts (r : enzyme_row) : list nat :=
  [e_protein_count r; e_synonym_count r; e_reaction_count r;
   e_km_count r; e_turnover_count r; e_inhibitor_count r].

(** [len(entry.get(key) or default)] *)
Definition collection_len (entry : pyval) (key : string) (dflt : pyval) : result nat :=
  v ← get_or entry key dflt; py_len v.

(** Markup delimiter characters. *)
Definition MARKUP_CHARS : list ascii :=
  ["#"%char; "<"%char; ">"%char; "{"%char; "}"%char; "("%char; ")"%char].

Definition TAB : string := String tab EmptyString.
Definition NL : string := String nl EmptyString.

(** The flat file of the spec's scanner example. *)
Definition scanner_example : string :=
  "ID" +:+ TAB +:+ "E1" +:+ NL +:+ "AB" +:+ TAB +:+ "foo" +:+ NL +:+ TAB +:+ "bar" +:+ NL
  +:+ "CD" +:+ TAB +:+ "baz" +:+ NL +:+ "///" +:+ NL.

(** A plain text record with no markup. *)
Definition plain_record (ec code : string) (value : string) : text_row :=
  {| t_ec := ec; t_code := code; t_label := assoc_str code TEXT_FIELD_LABELS;
     t_value := value; t_cleaned := value; t_proteins := None; t_references := None;
     t_qualifiers := None |}.


(** [t] occurs in [s]. *)
Definition substr (t s : string) : Prop := exists a b, s = a +:+ t +:+ b.

(** The first character of [s] is whitespace. *)
Definition head_space (s : string) : bool :=
  match s with String c _ => is_space c | EmptyString => false end.

(** Whitespace in [s] is single plain spaces. *)
Fixpoint ws_norm (s : string) : bool :=
  match s with
  | EmptyString => true
  | String c t =>
      (if is_space c then Ascii.eqb c " " && negb (head_space t) else true) && ws_norm t
  end.




(** The counts of the Enzyme row built for [ec] depend only on the entry's
    values at [keys]: two entries that agree there get the same counts. *)
Definition counts_from (ec : string) (keys : list string) : Prop :=
  forall kvs1 kvs2 r1 r2,
    (forall k, In k keys -> py_get (PDict kvs1) k = py_get (PDict kvs2) k) ->
    build_enzyme_row ec (PDict kvs1) = Ok r1 ->
    build_enzyme_row ec (PDict kvs2) = Ok r2 ->
    enzyme_counts r1 = enzyme_counts r2.

(** A JSON input with one entry whose [km_value] list holds [n] items. *)
Definition km_entry_fs (n : nat) : gmap string file :=
  {[ "in.json" := FFile EmptyString
       (Some (PDict [("data", PDict [("1.1.1.1",
          PDict [("km_value", PList (repeat (PDict [("value", PStr "1")]) n))])])])) ]}.

(** The rows of a run as (table, EC number): those in the store and those
    still in the three buffers of the JSON pass. *)
Definition all_rows (s : run) : list (string * string) :=
  row_log (written s) ++ map (fun r => ("enzymes", e_ec r)) (enzyme_rows s) ++
  map (fun r => ("proteins", p_ec r)) (protein_rows s) ++
  map (fun r => ("enzyme_facts", f_ec r)) (fact_rows s).

(** Every row carries an EC number of [E] that also has an [enzymes] row. *)
Definition rows_seen (E : list string) (s : run) : Prop :=
  forall x, In x (all_rows s) -> In (snd x) E /\ In ("enzymes", snd x) (all_rows s).

(** Partial correctness of a step of the run, the exceptional exit included
    (a raised exception keeps the state reached). *)
Definition hoare {A} (P : run -> Prop) (m : M A) (Q : run -> Prop) : Prop :=
  forall s, P s -> Q (snd (m s)).

(** The same, inside the body of one entry whose [enzymes] row is buffered. *)
Definition entry_rows_seen (E : list string) (ec : string) (s : run) : Prop :=
  rows_seen E s /\ In ("enzymes", ec) (all_rows s).


(** The inserts of a run followed by its four buffers. *)
Definition all_batches (s : run) : list batch :=
  written s ++ [BEnzyme (enzyme_rows s); BProtein (protein_rows s); BFact (fact_rows s);
                BText (text_rows s)].

(** The number of elements of [l] satisfying [f]. *)
Definition count_in {X} (f : X -> bool) (l : list X) : nat := length (List.filter f l).

(** The number of rows of table [t] in the inserts [w]. *)
Definition table_rows (t : string) (w : list batch) : nat :=
  count_in (fun x => String.eqb (fst x) t) (row_log w).

(** The [category] column of the [enzyme_facts] rows and the [field_code]
    column of the [text_facts] rows in the inserts [w]. *)
Definition fact_categories (w : list batch) : list string :=
  flat_map (fun b => match b with BFact rows => map f_category rows | _ => [] end) w.
Definition text_codes (w : list batch) : list string :=
  flat_map (fun b => match b with BText rows => map t_code rows | _ => [] end) w.

(** [counter[k]] on a [Counter]: 0 for a missing key. *)
Definition counter_get (k : string) (c : list (string * nat)) : nat := default 0%nat (assoc_str k c).

(** The counters of a run agree with its rows, the store and the buffers
    together; [d] enzymes are counted whose row is not yet buffered. *)
Definition stats_inv (d : nat) (s : run) : Prop :=
  forall k : string,
  s_enzyme_count (stats_of s) = (d + table_rows "enzymes" (all_batches s))%nat /\
  s_protein_count (stats_of s) = table_rows "proteins" (all_batches s) /\
  s_fact_count (stats_of s) = table_rows "enzyme_facts" (all_batches s) /\
  s_text_fact_count (stats_of s) = table_rows "text_facts" (all_batches s) /\
  counter_get k (s_category_counts (stats_of s)) =
    count_in (String.eqb k) (fact_categories (all_batches s)) /\
  counter_get k (s_text_field_counts (stats_of s)) =
    count_in (String.eqb k) (text_codes (all_batches s)).

(** Partial correctness of a step on its normal exit only. *)
Definition hoare_ok {A} (P : run -> Prop) (m : M A) (Q : A -> run -> Prop) : Prop :=
  forall s, P s -> match m s with (Ok a, s') => Q a s' | (Raise _, _) => True end.

(** A JSON file with one entry (one protein, two [km_value] items) and the
    flat file of the scanner example. *)
Definition stats_example_fs : gmap string file :=
  {[ "in.json" := FFile EmptyString (Some (PDict [("data", PDict [("1.1.1.1", PDict
        [("id", PStr "1.1.1.1");
         ("protein", PDict [("1", PDict [("organism", PStr "E. coli")])]);
         ("km_value", PList [PDict [("value", PStr "1 mM")]; PStr "2"])])])]));
     "in.txt" := FFile scanner_example None ]}.

(** The invariants of the JSON pass and of the text pass. *)
Definition json_inv (s : run) : Prop := stats_inv 0 s /\ text_rows s = [].

Definition text_inv (s : run) : Prop :=
  stats_inv 0 s /\ enzyme_rows s = [] /\ protein_rows s = [] /\ fact_rows s = [].

(** ======================================================================= *)
(** ** Further views of the code *)

(** A value holds a [Decimal] (a non-integer JSON number) at some depth:
    [json.dumps] cannot serialise it. *)
Fixpoint has_dec (v : pyval) : bool :=
  match v with
  | PDec _ => true
  | PList l => (fix go (l : list pyval) : bool :=
                  match l with [] => false | x :: rest => has_dec x || go rest end) l
  | PDict kvs => (fix go (kvs : list (string * pyval)) : bool :=
                    match kvs with [] => false | (_, x) :: rest => has_dec x || go rest end) kvs
  | _ => false
  end.

(** The scanner's variables as the loop keeps them: a field code is non-empty
    and stripped, an EC number stripped. *)
Definition tstate_ok (st : tstate) : Prop :=
  (forall c, current_code st = Some c -> c <> EmptyString /\ py_strip c = c) /\
  (forall e, current_ec st = Some e -> py_strip e = e).

(** A text record with a non-empty stripped value and code and a stripped
    EC number. *)
Definition text_row_ok (r : text_row) : Prop :=
  t_value r <> EmptyString /\ py_strip (t_value r) = t_value r /\
  t_code r <> EmptyString /\ py_strip (t_code r) = t_code r /\
  py_strip (t_ec r) = t_ec r.

(** [len(x)] is defined: a string, a list or a dict. *)
Definition sized (v : pyval) : bool :=
  match v with PStr _ | PList _ | PDict _ => true | _ => false end.

(** [entry.get(k)] on a JSON object. *)
Definition entry_field (kvs : list (string * pyval)) (k : string) : pyval :=
  default PNone (assoc_str k kvs).

(** [_join(value)]: [None] for a false value; a string as it is; an
    iterable (a list, or a dict, which iterates its keys) joined with [";"]
    after dropping its [None] items; anything else as [str(value)]. *)
Definition py_join (v : pyval) : option string :=
  if negb (truthy v) then None
  else match v with
  | PStr s => Some s
  | PList l => Some (join ";" (map py_str (List.filter (fun x => match x with PNone => false | _ => true end) l)))
  | PDict kvs => Some (join ";" (map fst kvs))
  | _ => Some (py_str v)
  end.

(** Insert a counter item after every item of a count at least as large. *)
Fixpoint insert_desc (x : string * nat) (l : list (string * nat)) : list (string * nat) :=
  match l with
  | [] => [x]
  | y :: rest => if (snd y <? snd x)%nat then x :: y :: rest else y :: insert_desc x rest
  end.

(** [sorted(items, key=lambda item: item[1], reverse=True)]: Python's sort
    is stable also with [reverse=True], so items of equal count keep their
    order; inserting the items one by one in order gives that list. *)
Definition sort_desc (l : list (string * nat)) : list (string * nat) :=
  fold_left (fun acc x => insert_desc x acc) l [].

(** [run_cli]'s [top_categories] and [top_text]:
    [sorted(counter.items(), key=..., reverse=True)[:10]]. *)
Definition top_counts (c : list (string * nat)) : list (string * nat) :=
  firstn 10 (sort_desc c).

(** The order of [top_counts]: counts never increase. *)
Definition desc (a b : string * nat) : Prop := (snd b <= snd a)%nat.

(** No fact row of the run, written or buffered, has a category among
    [BASE_FIELDS] and [SPECIAL_KEYS]. *)
Definition cat_inv (s : run) : Prop :=
  forall c, existsb (String.eqb c) (BASE_FIELDS ++ SPECIAL_KEYS) = true ->
  count_in (String.eqb c) (fact_categories (all_batches s)) = 0%nat.

(** The rows of the [text_facts] table in a list of inserts. *)
Definition text_rows_of (w : list batch) : list text_row :=
  flat_map (fun b => match b with BText rows => rows | _ => [] end) w.

(** [text_row_ok] as a boolean test. *)
Definition text_row_okb (r : text_row) : bool :=
  nonempty (t_value r) && String.eqb (py_strip (t_value r)) (t_value r) &&
  nonempty (t_code r) && String.eqb (py_strip (t_code r)) (t_code r) &&
  String.eqb (py_strip (t_ec r)) (t_ec r).

(** Every text row of the run, written or buffered, passes [text_row_okb]. *)
Definition text_store_inv (s : run) : Prop :=
  count_in (fun r => negb (text_row_okb r)) (text_rows_of (all_batches s)) = 0%nat.

(** A default for [nth] on a list of text records. *)
Definition text_row_dummy : text_row :=
  {| t_ec := EmptyString; t_code := EmptyString; t_label := None; t_value := EmptyString;
     t_cleaned := EmptyString; t_proteins := None; t_references := None; t_qualifiers := None |}.

(** The [enzyme_facts] rows of a store, in insertion order. *)
Definition fact_rows_of (w : list batch) : list fact_row :=
  flat_map (fun b => match b with BFact rows => rows | _ => [] end) w.

(** Every [enzyme_facts] insert written so far holds at least
    [BATCH_SIZE] rows: the state of the entry loop of the JSON pass. *)
Definition big_facts (s : run) : Prop :=
  Forall (fun n => (BATCH_SIZE <= n)%nat) (fact_batch_sizes (written s)).

(** The entries of one EC number with [n] [km_value] items. *)
Definition km_entries (n : nat) : list (string * pyval) :=
  [("1.1.1.1", PDict [("km_value", PList (repeat (PDict [("value", PStr "1")]) n))])].


(** * Properties *)

(** C6: the Markup Tokenizer on ["#P1# reported <PMID:123> under {note} (extra)"]
    yields protein tokens [P1], reference tokens [PMID:123], qualifier tokens
    [note; extra] (braces before parentheses), and the cleaned text
    ["P1 reported under note extra"]: [#], braces and parentheses stripped
    with their text kept, the angle reference removed, whitespace collapsed.
    The text record built from it carries the same tokens, joined. *)
Theorem markup_tokenizer_example :
  let v := "#P1# reported <PMID:123> under {note} (extra)" in
  protein_tokens v = ["P1"] /\
  reference_tokens v = ["PMID:123"] /\
  qualifier_tokens v = ["note"; "extra"] /\
  strip_markup v = "P1 reported under note extra" /\
  flush_text_record (Some "1.1.1.1") (Some "IN") [v] =
    [{| t_ec := "1.1.1.1"; t_code := "IN"; t_label := Some "inhibitor"; t_value := v;
        t_cleaned := "P1 reported under note extra"; t_proteins := Some "P1";
        t_references := Some "PMID:123"; t_qualifiers := Some "note;extra" |}].
Proof. vm_compute. repeat split. Qed.

(** ** The flat-file scanner *)

Lemma text_steps_app (st : tstate) (l1 l2 : list string) :
  text_steps st (l1 ++ l2) =
  let '(st1, o1) := text_steps st l1 in
  let '(st2, o2) := text_steps st1 l2 in (st2, o1 ++ o2).
Proof.
  revert st; induction l1 as [|l l1 IH]; intros st; simpl.
  - destruct (text_steps st l2); reflexivity.
  - destruct (text_step st l) as [sa oa].
    rewrite IH. destruct (text_steps sa l1) as [sb ob].
    destruct (text_steps sb l2) as [sc oc]. rewrite app_assoc. reflexivity.
Qed.

Lemma text_step_terminator (st : tstate) (l : string) :
  startswith "///" l = true -> text_step st l = (tstate0, flush_st st).
Proof.
  intros H. unfold text_step.
  destruct l as [|c l]; [discriminate|]. simpl String.eqb. cbv iota. rewrite H. reflexivity.
Qed.

(** Outside a record every line but an [ID] line leaves the scanner
    outside, emitting nothing. *)
Lemma text_steps_outside (post : list string) :
  (forall l, In l post -> startswith ID_TAB l = false) ->
  text_steps tstate0 post = (tstate0, []).
Proof.
  induction post as [|l post IH]; intros Hid; [reflexivity|].
  simpl. assert (Hl : text_step tstate0 l = (tstate0, [])).
  { unfold text_step.
    rewrite (Hid l (or_introl eq_refl)).
    destruct (String.eqb l EmptyString); [reflexivity|].
    destruct (startswith "///" l); reflexivity. }
  rewrite Hl, IH; [reflexivity|].
  intros l' Hin; apply Hid; right; exact Hin.
Qed.

(** C4: on ["ID\tE1\nAB\tfoo\n\tbar\nCD\tbaz\n///\n"] the scanner emits exactly
    two records for [E1]: [AB] with ["foo bar"] and [CD] with ["baz"]; and
    once a [///] line has been read, no record is emitted until a line
    starting with [ID\t]: any lines without one after the terminator add
    nothing. *)
Theorem flat_file_scanner_example :
  iter_text_records scanner_example =
    [plain_record "E1" "AB" "foo bar"; plain_record "E1" "CD" "baz"] /\
  forall (pre post : list string) (term : string),
    startswith "///" term = true ->
    (forall l, In l post -> startswith ID_TAB l = false) ->
    scan_text_lines (pre ++ term :: post) = scan_text_lines (pre ++ [term]).
Proof.
  split; [vm_compute; reflexivity|].
  intros pre post term Hterm Hid. unfold scan_text_lines.
  rewrite !text_steps_app.
  destruct (text_steps tstate0 pre) as [st1 o1].
  simpl. rewrite (text_step_terminator st1 term Hterm).
  rewrite (text_steps_outside post Hid). simpl. reflexivity.
Qed.

Lemma flat_file_scanner_example_witness :
  scan_text_lines (["ID" +:+ TAB +:+ "E1"; "AB" +:+ TAB +:+ "x"] ++ "///" :: ["AB" +:+ TAB +:+ "y"])
  = scan_text_lines (["ID" +:+ TAB +:+ "E1"; "AB" +:+ TAB +:+ "x"] ++ ["///"]).
Proof.
  apply (proj2 flat_file_scanner_example).
  - reflexivity.
  - intros l [H|[]]; subst l; reflexivity.
Defined.

(** ** Failing fast on missing inputs *)

(** C8: when the JSON input does not exist, or a text-dump path is given
    and that file does not exist, [ingest] raises [FileNotFoundError]
    before writing anything: the file system, the store included, is left
    as it was. *)
Theorem ingest_missing_input_fails_fast (fs : gmap string file)
    (json_path db_path : string) (txt_path : option string) :
  (fs !! json_path = None \/ exists p, txt_path = Some p /\ fs !! p = None) ->
  exists path, ingest fs json_path db_path txt_path = (Raise (FileNotFoundError path), fs).
Proof.
  intros H. unfold ingest.
  destruct (fs !! json_path) as [f|] eqn:Hj.
  - destruct H as [H | [p [-> Hp]]]; [discriminate|].
    rewrite Hp. eauto.
  - eauto.
Qed.

Lemma ingest_missing_input_fails_fast_witness :
  exists path, ingest {[ "in.json" := FFile "" None ]} "in.json" "out.db" (Some "in.txt")
               = (Raise (FileNotFoundError path), {[ "in.json" := FFile "" None ]}).
Proof.
  apply ingest_missing_input_fails_fast.
  right. exists "in.txt". split; [reflexivity|]. vm_compute. reflexivity.
Defined.

(** ** Cleaning markup *)

Lemma all_chars_impl (P Q : ascii -> bool) (s : string) :
  (forall c, P c = true -> Q c = true) -> all_chars P s = true -> all_chars Q s = true.
Proof.
  intros HPQ; induction s as [|c t IH]; simpl; [reflexivity|].
  intros H; apply andb_prop in H as [Hc Ht]. rewrite (HPQ c Hc), (IH Ht). reflexivity.
Qed.

(** A pattern that starts with a character of [p] leaves a string without
    such a character unchanged under [re.sub]. *)
Lemma scan_no_start (p : ascii -> bool) (r2 : regex) (repl : string -> caps -> string) :
  forall f s, all_chars (fun c => negb (p c)) s = true -> (String.length s < f)%nat ->
  render repl (scan f (RSeq (RChr p) r2) s) = s.
Proof.
  induction f as [|f IH]; intros s Hs Hf; [lia|].
  destruct s as [|c t]; [reflexivity|].
  simpl in Hs. apply andb_prop in Hs as [Hc Ht]. apply negb_true_iff in Hc.
  simpl. unfold match_at; simpl. rewrite Hc. simpl. f_equal.
  apply IH; [exact Ht | simpl in Hf; lia].
Qed.

Lemma sub_no_start (p : ascii -> bool) (r2 : regex) (repl : string -> caps -> string) (s : string) :
  all_chars (fun c => negb (p c)) s = true -> sub (RSeq (RChr p) r2) repl s = s.
Proof. intros H. apply scan_no_start; [exact H | lia]. Qed.

Lemma lstrip_length (s : string) : (String.length (lstrip s) <= String.length s)%nat.
Proof. induction s as [|c t IH]; simpl; [lia|]. destruct (is_space c); simpl; lia. Qed.

Lemma lstrip_head (s : string) : head_space (lstrip s) = false.
Proof. induction s as [|c t IH]; simpl; [reflexivity|]. destruct (is_space c) eqn:E; simpl; auto. Qed.

(** A greedy run of whitespace stops at the first other character. *)
Lemma star_space_lstrip (t : string) :
  star_greedy is_space t [] (fun s' cs => Some (s', cs)) = Some (lstrip t, []).
Proof.
  induction t as [|c t IH]; simpl; [reflexivity|].
  destruct (is_space c); [rewrite IH|]; reflexivity.
Qed.

Lemma match_ws (c : ascii) (t : string) :
  is_space c = true -> match_at WS_RE (String c t) = Some (lstrip t, []).
Proof. intros Hc. unfold match_at, WS_RE, RPlus; simpl. rewrite Hc. apply star_space_lstrip. Qed.

Lemma match_ws_none (c : ascii) (t : string) :
  is_space c = false -> match_at WS_RE (String c t) = None.
Proof. intros Hc. unfold match_at, WS_RE, RPlus; simpl. rewrite Hc. reflexivity. Qed.

Lemma render_hit repl m cs ps : render repl (Hit m cs :: ps) = repl m cs +:+ render repl ps.
Proof. reflexivity. Qed.

Lemma render_lit repl c ps : render repl (Lit c :: ps) = String c (render repl ps).
Proof. reflexivity. Qed.

(** [re.sub(r"\s+", " ", s)] leaves single spaces between other characters. *)
Lemma scan_ws_norm : forall f s, (String.length s < f)%nat ->
  ws_norm (render (const_repl " ") (scan f WS_RE s)) = true /\
  (head_space (render (const_repl " ") (scan f WS_RE s)) = true -> head_space s = true).
Proof.
  induction f as [|f IH]; intros s Hf; [lia|].
  destruct s as [|c t]; [split; [reflexivity | intros H; exact H]|].
  simpl scan. destruct (is_space c) eqn:Hc.
  - rewrite (match_ws c t Hc).
    assert (Hl := lstrip_length t). simpl in Hf.
    replace (String.length (lstrip t) <? S (String.length t))%nat with true
      by (symmetry; apply Nat.ltb_lt; lia).
    destruct (IH (lstrip t) ltac:(lia)) as [Hn Hh].
    rewrite render_hit.
    remember (render (const_repl " ") (scan f WS_RE (lstrip t))) as R eqn:ER.
    simpl. split; [|intros _; exact Hc].
    change ("" +:+ R) with R. rewrite Hn. destruct (head_space R) eqn:E; [|reflexivity].
    rewrite lstrip_head in Hh. specialize (Hh eq_refl). discriminate.
  - rewrite (match_ws_none c t Hc). simpl in Hf.
    destruct (IH t ltac:(lia)) as [Hn _].
    rewrite render_lit.
    remember (render (const_repl " ") (scan f WS_RE t)) as R eqn:ER.
    simpl. rewrite Hc, Hn.
    split; [reflexivity|]. intros H; exact H.
Qed.

(** On text already in that form it changes nothing. *)
Lemma scan_ws_id : forall f s, (String.length s < f)%nat -> ws_norm s = true ->
  render (const_repl " ") (scan f WS_RE s) = s.
Proof.
  induction f as [|f IH]; intros s Hf Hs; [lia|].
  destruct s as [|c t]; [reflexivity|].
  simpl in Hs. simpl scan. simpl in Hf.
  destruct (is_space c) eqn:Hc.
  - apply andb_prop in Hs as [Hc' Ht]. apply andb_prop in Hc' as [Hsp Hh].
    apply Ascii.eqb_eq in Hsp. subst c.
    rewrite (match_ws " " t Hc).
    assert (Ht0 : lstrip t = t).
    { destruct t as [|d u]; [reflexivity|]. simpl in Hh |- *.
      destruct (is_space d); [discriminate|reflexivity]. }
    rewrite Ht0.
    replace (String.length t <? S (String.length t))%nat with true
      by (symmetry; apply Nat.ltb_lt; lia).
    rewrite render_hit. unfold const_repl at 1. simpl. f_equal. apply IH; [lia|exact Ht].
  - rewrite (match_ws_none c t Hc). rewrite render_lit. f_equal.
    apply IH; [lia|]. simpl in Hs. exact Hs.
Qed.

Lemma ws_norm_tail (c : ascii) (t : string) : ws_norm (String c t) = true -> ws_norm t = true.
Proof. simpl. intros H. apply andb_prop in H as [_ H]. exact H. Qed.

Lemma ws_norm_lstrip (s : string) : ws_norm s = true -> ws_norm (lstrip s) = true.
Proof.
  induction s as [|c t IH]; simpl; [auto|].
  intros H. destruct (is_space c) eqn:E; [apply IH; apply andb_prop in H as [_ H]; exact H|].
  simpl. rewrite E. exact H.
Qed.

Lemma rstrip_head (s c x : _) : rstrip s = String c x -> exists y, s = String c y.
Proof.
  destruct s as [|d t]; simpl; [discriminate|].
  destruct (String.eqb (rstrip t) EmptyString && is_space d); [discriminate|].
  intros H; injection H as -> _; eauto.
Qed.

Lemma ws_norm_rstrip (s : string) : ws_norm s = true -> ws_norm (rstrip s) = true.
Proof.
  induction s as [|c t IH]; simpl; [auto|].
  intros H. apply andb_prop in H as [Hc Ht].
  destruct (String.eqb (rstrip t) EmptyString && is_space c) eqn:E; [reflexivity|].
  simpl. rewrite (IH Ht), andb_true_r.
  destruct (is_space c) eqn:Hs; [|reflexivity].
  apply andb_prop in Hc as [Hq Hh]. rewrite Hq. simpl.
  destruct (rstrip t) as [|d x] eqn:Er.
  - rewrite andb_true_r in E. discriminate.
  - destruct (rstrip_head t d x Er) as [y ->]. exact Hh.
Qed.

Lemma rstrip_idem (s : string) : rstrip (rstrip s) = rstrip s.
Proof.
  induction s as [|c t IH]; simpl; [reflexivity|].
  destruct (String.eqb (rstrip t) EmptyString && is_space c) eqn:E; [reflexivity|].
  simpl. rewrite IH, E. reflexivity.
Qed.

Lemma lstrip_rstrip_nohead (s : string) : head_space s = false -> lstrip (rstrip s) = rstrip s.
Proof.
  destruct s as [|c t]; simpl; [reflexivity|]. intros Hc.
  destruct (String.eqb (rstrip t) EmptyString && is_space c); [reflexivity|].
  simpl. rewrite Hc. reflexivity.
Qed.

Lemma py_strip_idem (s : string) : py_strip (py_strip s) = py_strip s.
Proof.
  unfold py_strip. rewrite (lstrip_rstrip_nohead (lstrip s) (lstrip_head s)).
  apply rstrip_idem.
Qed.

Lemma strip_markup_shape (s : string) : ws_norm (strip_markup s) = true.
Proof.
  unfold strip_markup, py_strip. apply ws_norm_rstrip, ws_norm_lstrip.
  apply scan_ws_norm. lia.
Qed.

Lemma no_markup_no_start (d : ascii) (s : string) :
  In d MARKUP_CHARS -> all_chars (not_in MARKUP_CHARS) s = true ->
  all_chars (fun c => negb (is_char d c)) s = true.
Proof.
  intros Hd. apply all_chars_impl. intros c Hc.
  unfold not_in in Hc. apply negb_true_iff in Hc. apply negb_true_iff.
  destruct (is_char d c) eqn:E; [|reflexivity].
  rewrite <- Hc. symmetry. apply existsb_exists. eauto.
Qed.

(** C7 (counterexample): cleaning is not idempotent.  Only the innermost of
    two nested parentheses is stripped in one pass: ["((a))"] cleans to
    ["(a)"], and cleaning that again gives ["a"]. *)
Lemma strip_markup_not_idempotent :
  strip_markup "((a))" = "(a)" /\ strip_markup (strip_markup "((a))") = "a".
Proof. vm_compute. split; reflexivity. Qed.

(** C7 (amended): cleaning is idempotent on every input whose cleaned text
    is free of the markup characters [# < > { } ( )]: then
    [clean(clean(s)) = clean(s)].  This condition is sufficient, not
    necessary (a cleaned text such as ["#"] keeps a markup character and is
    still a fixed point); in general cleaning is not idempotent. *)
Theorem strip_markup_idempotent (s : string) :
  all_chars (not_in MARKUP_CHARS) (strip_markup s) = true ->
  strip_markup (strip_markup s) = strip_markup s.
Proof.
  intros H. set (u := strip_markup s) in *.
  assert (Hn : ws_norm u = true) by apply strip_markup_shape.
  assert (Hp : py_strip u = u) by apply py_strip_idem.
  unfold strip_markup at 1.
  unfold HASH_TOKEN_RE, ANGLE_TOKEN_RE, BRACE_TOKEN_RE, PAREN_TOKEN_RE, token_re.
  rewrite (sub_no_start (is_char "#") _ _ u), (sub_no_start (is_char "<") _ _ u),
    (sub_no_start (is_char "{") _ _ u), (sub_no_start (is_char "(") _ _ u)
    by (apply no_markup_no_start; [simpl; tauto | exact H]).
  unfold sub, pieces. rewrite scan_ws_id; [exact Hp | lia | exact Hn].
Qed.

Lemma strip_markup_idempotent_witness :
  strip_markup (strip_markup "#P1# reported  <PMID:1> {x}") = strip_markup "#P1# reported  <PMID:1> {x}".
Proof. apply strip_markup_idempotent. vm_compute. reflexivity. Defined.

(** ** Soundness of the matcher *)


Lemma str_app_cons (c : ascii) (a b : string) : String c a +:+ b = String c (a +:+ b).
Proof. reflexivity. Qed.

Lemma str_app_assoc (a b c : string) : (a +:+ b) +:+ c = a +:+ (b +:+ c).
Proof. induction a as [|x a IH]; [reflexivity|]. rewrite !str_app_cons, IH. reflexivity. Qed.









Lemma substr_trans (t u v : string) : substr t u -> substr u v -> substr t v.
Proof.
  intros (a & b & ->) (a' & b' & ->).
  exists (a' +:+ a), (b +:+ b'). rewrite !str_app_assoc. reflexivity.
Qed.











(** ** Number tokens convert *)


















(** ** The value parser *)

Lemma py_float_cases (s : string) : (exists d, py_float s = Ok d) \/ py_float s = Raise ValueError.
Proof.
  unfold py_float. destruct (take_sign (py_strip s)) as [neg t1].
  unfold float_body. destruct (take_digits t1) as [ip t2].
  destruct (float_frac t2) as [fp t3].
  destruct (String.eqb (ip +:+ fp) EmptyString); [right; reflexivity|].
  destruct (float_exp t3) as [ex [|]]; [left; eexists; reflexivity | right; reflexivity].
Qed.

Lemma low_high_total (float : string -> result dec) :
  (forall s, (exists d, float s = Ok d) \/ float s = Raise ValueError) ->
  forall ns, exists l h, low_high float ns = Ok (l, h) /\ (l = None <-> h = None).
Proof.
  intros Hf [|n0 rest]; [exists None, None; split; [reflexivity | tauto]|].
  unfold low_high. cbv beta iota.
  destruct (Hf n0) as [[d0 E0] | E0]; rewrite E0; [|exists None, None; split; [reflexivity | tauto]].
  destruct (Hf (last_str (n0 :: rest))) as [[d1 E1] | E1]; rewrite E1;
    [|exists None, None; split; [reflexivity | tauto]].
  exists (Some d0), (Some d1). split; [reflexivity|]. split; discriminate.
Qed.



Lemma parse_value_unfold (v : string) :
  parse_value v =
    let '(body, context) := body_context (py_strip v) in
    match low_high py_float (findall NUMERIC_RE body) with
    | Ok (low, high) =>
        Ok (low, high,
            match findall NUMERIC_RE body with [] => None | _ => unit_of body end, context)
    | Raise e => Raise e
    end.
Proof.
  unfold parse_value, parse_value_with. cbv zeta.
  destruct (body_context (py_strip v)) as [body context].
  destruct (low_high py_float (findall NUMERIC_RE body)) as [[l h] | e]; reflexivity.
Qed.









(** C10: for every value string, [_parse_value] returns, and its [low] and
    [high] are both [None] or both set. *)
Theorem parse_value_low_high_paired (v : string) :
  exists low high unit context,
    parse_value v = Ok (low, high, unit, context) /\ (low = None <-> high = None).
Proof.
  rewrite parse_value_unfold.
  destruct (body_context (py_strip v)) as [body context].
  destruct (low_high_total py_float py_float_cases (findall NUMERIC_RE body))
    as (l & h & E & Hiff).
  rewrite E. do 4 eexists. split; [reflexivity | exact Hiff].
Qed.







(** ** The Enzyme row's counts *)

Lemma bind_ok {A B} (m : result A) (f : A -> result B) (y : B) :
  (x ← m; f x) = Ok y -> exists x, m = Ok x /\ f x = Ok y.
Proof. destruct m as [x|e]; [intros H; exists x; auto | discriminate]. Qed.

Lemma bind_of_ok {A B} (x : A) (f : A -> result B) : (z ← Ok x; f z) = f x.
Proof. reflexivity. Qed.

(** Each count is the length of one collection of the entry. *)
Lemma enzyme_row_counts (ec : string) (kvs : list (string * pyval)) (r : enzyme_row) :
  build_enzyme_row ec (PDict kvs) = Ok r ->
  collection_len (PDict kvs) "protein" (PDict []) = Ok (e_protein_count r) /\
  collection_len (PDict kvs) "synonyms" (PList []) = Ok (e_synonym_count r) /\
  collection_len (PDict kvs) "reaction" (PList []) = Ok (e_reaction_count r) /\
  collection_len (PDict kvs) "km_value" (PList []) = Ok (e_km_count r) /\
  collection_len (PDict kvs) "turnover_number" (PList []) = Ok (e_turnover_count r) /\
  collection_len (PDict kvs) "inhibitor" (PList []) = Ok (e_inhibitor_count r).
Proof.
  unfold build_enzyme_row, collection_len. intros H.
  apply bind_ok in H as (proteins & Ep & H).
  apply bind_ok in H as (synonyms & Es & H).
  apply bind_ok in H as (reactions & Er & H).
  apply bind_ok in H as (summary & _ & H).
  apply bind_ok in H as (eid & _ & H).
  apply bind_ok in H as (rname & _ & H).
  apply bind_ok in H as (sname & _ & H).
  apply bind_ok in H as (np & Enp & H).
  apply bind_ok in H as (ns & Ens & H).
  apply bind_ok in H as (nr & Enr & H).
  apply bind_ok in H as (nk & Enk & H).
  apply bind_ok in H as (nt & Ent & H).
  apply bind_ok in H as (ni & Eni & H).
  injection H as <-.
  rewrite Ep, Es, Er, !bind_of_ok.
  repeat split; assumption.
Qed.

Lemma collection_len_agree (kvs1 kvs2 : list (string * pyval)) (k : string) (d : pyval) :
  py_get (PDict kvs1) k = py_get (PDict kvs2) k ->
  collection_len (PDict kvs1) k d = collection_len (PDict kvs2) k d.
Proof. intros H. unfold collection_len, get_or. rewrite H. reflexivity. Qed.

Lemma py_get_other (k k' : string) (v : pyval) :
  k <> k' -> py_get (PDict [(k, v)]) k' = py_get (PDict []) k'.
Proof.
  intros Hne. unfold py_get. simpl. destruct (String.eqb_spec k k') as [->|_]; [congruence|reflexivity].
Qed.

(** A count taken from [k] changes with [k] alone. *)
Lemma count_key_matters (k c1 c2 : string) :
  In k ["km_value"; "turnover_number"; "inhibitor"] -> k <> c1 -> k <> c2 ->
  ~ counts_from "1.1.1.1" ["protein"; "synonyms"; "reaction"; c1; c2].
Proof.
  intros Hin H1 H2 H.
  assert (Hag : forall k', In k' ["protein"; "synonyms"; "reaction"; c1; c2] ->
                py_get (PDict [(k, PList [PNone])]) k' = py_get (PDict []) k').
  { intros k' Hk'. apply py_get_other.
    destruct Hk' as [<- | [<- | [<- | [<- | [<- | []]]]]]; try assumption;
      destruct Hin as [<- | [<- | [<- | []]]]; discriminate. }
  destruct Hin as [<- | [<- | [<- | []]]];
    specialize (H _ _ _ _ Hag eq_refl eq_refl); vm_compute in H; discriminate.
Qed.

(** C5 (counterexample): three hand-picked categories, not two, feed the
    counts: for any two keys besides the protein, synonym and reaction
    collections, the counts are not determined by those five keys. *)
Lemma enzyme_counts_not_two_categories :
  ~ exists c1 c2, counts_from "1.1.1.1" ["protein"; "synonyms"; "reaction"; c1; c2].
Proof.
  intros (c1 & c2 & H).
  destruct (String.eqb_spec "km_value" c1) as [E1|N1];
    [|destruct (String.eqb_spec "km_value" c2) as [E2|N2];
      [|exact (count_key_matters "km_value" c1 c2 ltac:(simpl; tauto) N1 N2 H)]];
  (destruct (String.eqb_spec "turnover_number" c1) as [F1|M1];
    [|destruct (String.eqb_spec "turnover_number" c2) as [F2|M2];
      [|exact (count_key_matters "turnover_number" c1 c2 ltac:(simpl; tauto) M1 M2 H)]]);
  apply (count_key_matters "inhibitor" c1 c2 ltac:(simpl; tauto)); try exact H;
  congruence.
Qed.

(** C5 (amended): the counts of an Enzyme row are the lengths of the
    entry's [protein], [synonyms] and [reaction] collections and of three
    high-value categories, [km_value], [turnover_number] and [inhibitor]
    (a missing or empty value counting as an empty collection), and they
    depend on nothing else in the entry, the facts emitted for it
    included. *)
Theorem enzyme_counts_from_collections (ec : string) :
  (forall kvs r, build_enzyme_row ec (PDict kvs) = Ok r ->
     collection_len (PDict kvs) "protein" (PDict []) = Ok (e_protein_count r) /\
     collection_len (PDict kvs) "synonyms" (PList []) = Ok (e_synonym_count r) /\
     collection_len (PDict kvs) "reaction" (PList []) = Ok (e_reaction_count r) /\
     collection_len (PDict kvs) "km_value" (PList []) = Ok (e_km_count r) /\
     collection_len (PDict kvs) "turnover_number" (PList []) = Ok (e_turnover_count r) /\
     collection_len (PDict kvs) "inhibitor" (PList []) = Ok (e_inhibitor_count r)) /\
  counts_from ec ["protein"; "synonyms"; "reaction"; "km_value"; "turnover_number"; "inhibitor"].
Proof.
  split; [exact (enzyme_row_counts ec)|].
  intros kvs1 kvs2 r1 r2 Hag E1 E2.
  destruct (enzyme_row_counts ec kvs1 r1 E1) as (A1 & B1 & C1 & D1 & F1 & G1).
  destruct (enzyme_row_counts ec kvs2 r2 E2) as (A2 & B2 & C2 & D2 & F2 & G2).
  rewrite collection_len_agree with (kvs2 := kvs2) in A1, B1, C1, D1, F1, G1
    by (apply Hag; simpl; tauto).
  unfold enzyme_counts. congruence.
Qed.


Lemma enzyme_counts_from_collections_witness :
  exists r, build_enzyme_row "1.1.1.1" (PDict [("km_value", PList [PNone; PNone])]) = Ok r /\
    collection_len (PDict [("km_value", PList [PNone; PNone])]) "km_value" (PList []) = Ok (e_km_count r).
Proof.
  eexists. split; [reflexivity|].
  exact (proj1 (proj2 (proj2 (proj2
    (proj1 (enzyme_counts_from_collections "1.1.1.1")
       [("km_value", PList [PNone; PNone])] _ eq_refl))))).
Defined.

(** ** Batches of the text pass *)

Lemma for_each_cons {A} (x : A) (l : list A) (body : A -> M unit) (s : run) :
  for_each (x :: l) body s =
    match body x s with
    | (Ok _, s') => for_each l body s'
    | (Raise e, s') => (Raise e, s')
    end.
Proof. reflexivity. Qed.

Lemma flush_texts_cons (s : run) (r : text_row) (rs : list text_row) :
  text_rows s = r :: rs ->
  flush_texts s = (Ok tt, set_text_rows [] (set_written (written s ++ [BText (r :: rs)]) s)).
Proof. intros E. unfold flush_texts, modify. rewrite E. reflexivity. Qed.

Lemma flush_texts_nil (s : run) : text_rows s = [] -> flush_texts s = (Ok tt, s).
Proof. intros E. unfold flush_texts, modify. rewrite E. reflexivity. Qed.

(** One record: it joins the buffer, and a buffer that reaches
    [BATCH_SIZE] rows is inserted and emptied. *)
Lemma text_record_step (x : text_row) (s : run) :
  (length (text_rows s) < BATCH_SIZE)%nat ->
  exists s1, text_record x s = (Ok tt, s1) /\
    ((S (length (text_rows s)) = BATCH_SIZE /\
      written s1 = written s ++ [BText (text_rows s ++ [x])] /\ text_rows s1 = []) \/
     ((S (length (text_rows s)) < BATCH_SIZE)%nat /\
      written s1 = written s /\ text_rows s1 = text_rows s ++ [x])).
Proof.
  intros Hs. unfold text_record.
  cbv [mbind M_bind modify get_run]. cbv beta iota.
  set (s0 := set_counts _ _ _ _ _ _).
  assert (Hb : text_rows s0 = text_rows s ++ [x]) by reflexivity.
  assert (Hw : written s0 = written s) by reflexivity.
  rewrite Hb, length_app. change (length [x]) with 1%nat.
  destruct (Nat.leb_spec BATCH_SIZE (length (text_rows s) + 1)) as [Hle | Hlt].
  - destruct (text_rows s ++ [x]) as [|r rs] eqn:E; [destruct (text_rows s); discriminate|].
    rewrite (flush_texts_cons s0 r rs Hb).
    eexists. split; [reflexivity|]. left.
    split; [lia|]. split; reflexivity.
  - eexists. split; [reflexivity|]. right.
    split; [lia|]. split; [exact Hw | exact Hb].
Qed.

(** The loop: full batches are inserted, fewer than [BATCH_SIZE] rows stay
    buffered. *)
Lemma text_loop (recs : list text_row) : forall s, (length (text_rows s) < BATCH_SIZE)%nat ->
  exists bs, fst (for_each recs text_record s) = Ok tt /\
    written (snd (for_each recs text_record s)) = written s ++ map BText bs /\
    concat bs ++ text_rows (snd (for_each recs text_record s)) = text_rows s ++ recs /\
    Forall (fun b => length b = BATCH_SIZE) bs /\
    (length (text_rows (snd (for_each recs text_record s))) < BATCH_SIZE)%nat.
Proof.
  induction recs as [|x recs IH]; intros s Hs.
  - exists []. simpl. rewrite !app_nil_r. auto.
  - rewrite for_each_cons.
    destruct (text_record_step x s Hs) as (s1 & -> & [(Hn & Hw & Hr) | (Hn & Hw & Hr)]).
    + destruct (IH s1 ltac:(rewrite Hr; unfold BATCH_SIZE; simpl; lia))
        as (bs & Hok & Hw' & Hc & Hf & Hl).
      exists ((text_rows s ++ [x]) :: bs). repeat split; try assumption.
      * rewrite Hw', Hw, <- app_assoc. reflexivity.
      * simpl. rewrite <- app_assoc, Hc, Hr. simpl. rewrite <- app_assoc. reflexivity.
      * constructor; [rewrite length_app; simpl; lia | exact Hf].
    + assert (H1 : (length (text_rows s1) < BATCH_SIZE)%nat)
        by (rewrite Hr, length_app; simpl length; lia).
      destruct (IH s1 H1) as (bs & Hok & Hw' & Hc & Hf & Hl).
      exists bs. repeat split; try assumption.
      * rewrite Hw', Hw. reflexivity.
      * rewrite Hc, Hr, <- app_assoc. reflexivity.
Qed.

Lemma concat_full_length (bs : list (list text_row)) :
  Forall (fun b => length b = BATCH_SIZE) bs -> length (concat bs) = (BATCH_SIZE * length bs)%nat.
Proof.
  induction 1 as [|b bs Hb _ IH]; [simpl concat; simpl length; lia|].
  change (concat (b :: bs)) with (b ++ concat bs). change (length (b :: bs)) with (S (length bs)).
  rewrite length_app, Hb, IH. lia.
Qed.

Lemma map_full_length (bs : list (list text_row)) :
  Forall (fun b => length b = BATCH_SIZE) bs -> map (@length _) bs = repeat BATCH_SIZE (length bs).
Proof. induction 1 as [|b bs Hb _ IH]; simpl; [reflexivity|]. rewrite Hb, IH. reflexivity. Qed.

Lemma chunk_sizes_split (k r : nat) : (r < BATCH_SIZE)%nat ->
  chunk_sizes (BATCH_SIZE * k + r) = repeat BATCH_SIZE k ++ (if (r =? 0)%nat then [] else [r]).
Proof.
  intros Hr. unfold chunk_sizes.
  rewrite <- (Nat.div_unique (BATCH_SIZE * k + r) BATCH_SIZE k r Hr eq_refl).
  rewrite <- (Nat.mod_unique (BATCH_SIZE * k + r) BATCH_SIZE k r Hr eq_refl).
  reflexivity.
Qed.

(** C3 (counterexample): the JSON pass tests the fact buffer only after a
    whole entry, so one entry with [BATCH_SIZE + 1] facts is inserted as a
    single batch of 501 rows, not as 500 rows then 1. *)
Lemma json_pass_oversized_batch :
  fact_batch_sizes (store_at (snd (ingest (km_entry_fs 501) "in.json" "out.db" None)) "out.db")
  = [501%nat].
Proof. vm_compute. reflexivity. Qed.

(** The text pass tests its buffer after every record.  From an empty
    buffer, [n] records are inserted in batches of [BATCH_SIZE] followed by
    one batch of the remainder if any ([chunk_sizes n]), in order, and
    nothing stays buffered. *)
Lemma text_pass_chunks (recs : list text_row) (s : run) :
  text_rows s = [] ->
  (chunk_sizes BATCH_SIZE = [BATCH_SIZE] /\ chunk_sizes (S BATCH_SIZE) = [BATCH_SIZE; 1%nat]) /\
  exists bs, fst (text_pass recs s) = Ok tt /\
    written (snd (text_pass recs s)) = written s ++ map BText bs /\
    concat bs = recs /\ map (@length _) bs = chunk_sizes (length recs) /\
    text_rows (snd (text_pass recs s)) = [].
Proof.
  intros H0. split; [split; vm_compute; reflexivity|].
  assert (Hs : (length (text_rows s) < BATCH_SIZE)%nat) by (rewrite H0; cbv; lia).
  destruct (text_loop recs s Hs) as (bs & Hok & Hw & Hc & Hf & Hl).
  rewrite H0 in Hc. simpl in Hc.
  unfold text_pass. cbv [mbind M_bind].
  destruct (for_each recs text_record s) as [r s'] eqn:E. simpl in Hok, Hw, Hc, Hl. subst r.
  assert (Hlen : length recs = (BATCH_SIZE * length bs + length (text_rows s'))%nat)
    by (rewrite <- Hc, length_app, concat_full_length by exact Hf; reflexivity).
  destruct (text_rows s') as [|t ts] eqn:Et.
  - rewrite (flush_texts_nil s' Et). exists bs. simpl.
    rewrite app_nil_r in Hc.
    repeat split; [exact Hw | exact Hc | | exact Et].
    rewrite Hlen, (map_full_length bs Hf), chunk_sizes_split by (cbv; lia).
    simpl. rewrite app_nil_r. reflexivity.
  - rewrite (flush_texts_cons s' t ts Et). exists (bs ++ [t :: ts]). simpl.
    repeat split.
    + rewrite Hw, map_app, app_assoc. reflexivity.
    + rewrite concat_app. simpl. rewrite app_nil_r. exact Hc.
    + rewrite Hlen, map_app, (map_full_length bs Hf), chunk_sizes_split by exact Hl.
      reflexivity.
Qed.

(** *** Row provenance in the JSON pass *)

Lemma hoare_consequence {A} (P Q Q' : run -> Prop) (m : M A) :
  hoare P m Q -> (forall s, Q s -> Q' s) -> hoare P m Q'.
Proof. intros H HQ s Hs. apply HQ, H, Hs. Qed.

Lemma hoare_bind {A B} (P R Q : run -> Prop) (m : M A) (f : A -> M B) :
  hoare P m R -> (forall a, hoare R (f a) Q) -> (forall s, R s -> Q s) ->
  hoare P (x ← m; f x) Q.
Proof.
  intros Hm Hf HRQ s Hs. specialize (Hm s Hs). cbv [mbind M_bind].
  destruct (m s) as [[a|e] s'] eqn:E; simpl in Hm |- *.
  - apply Hf, Hm.
  - apply HRQ, Hm.
Qed.

Lemma hoare_bind_lift {A B} (P Q : run -> Prop) (r : result A) (f : A -> M B) :
  (forall a, r = Ok a -> hoare P (f a) Q) -> (forall s, P s -> Q s) ->
  hoare P (x ← lift r; f x) Q.
Proof.
  intros Hf HPQ s Hs. cbv [mbind M_bind lift].
  destruct r as [a|e]; [apply (Hf a eq_refl), Hs | apply HPQ, Hs].
Qed.

Lemma hoare_ret {A} (P : run -> Prop) (a : A) : hoare P (mret a) P.
Proof. intros s Hs. exact Hs. Qed.

Lemma hoare_get (P : run -> Prop) : hoare P get_run P.
Proof. intros s Hs. exact Hs. Qed.

Lemma hoare_modify (P Q : run -> Prop) (f : run -> run) :
  (forall s, P s -> Q (f s)) -> hoare P (modify f) Q.
Proof. intros H s Hs. apply H, Hs. Qed.

Lemma hoare_for_each {A} (P : run -> Prop) (l : list A) (body : A -> M unit) :
  (forall x, In x l -> hoare P (body x) P) -> hoare P (for_each l body) P.
Proof.
  induction l as [|x l IH]; intros Hb s Hs; [exact Hs|].
  rewrite for_each_cons.
  pose proof (Hb x (or_introl eq_refl) s Hs) as Hx.
  destruct (body x s) as [[u|e] s'] eqn:E; simpl in Hx |- *; [|exact Hx].
  apply IH; [intros y Hy; apply Hb; right; exact Hy | exact Hx].
Qed.

Lemma in_row_log_app (w1 w2 : list batch) x :
  In x (row_log (w1 ++ w2)) <-> In x (row_log w1) \/ In x (row_log w2).
Proof. unfold row_log. rewrite flat_map_app. apply in_app_iff. Qed.

Lemma in_row_log_one (b : batch) x : In x (row_log [b]) <-> In x (batch_rows b).
Proof. unfold row_log. simpl. rewrite app_nil_r. reflexivity. Qed.

Ltac rows_tac :=
  intros; unfold all_rows; simpl;
  repeat (rewrite ?in_app_iff, ?in_row_log_app, ?in_row_log_one, ?map_app in *; simpl in *);
  tauto.

Lemma all_rows_enzyme s row x :
  In x (all_rows (set_enzyme_rows (enzyme_rows s ++ [row]) s)) <->
  In x (all_rows s) \/ x = ("enzymes", e_ec row).
Proof. unfold all_rows; simpl. rewrite map_app. rewrite !in_app_iff. simpl. intuition congruence. Qed.

Lemma all_rows_protein s row x :
  In x (all_rows (set_protein_rows (protein_rows s ++ [row]) s)) <->
  In x (all_rows s) \/ x = ("proteins", p_ec row).
Proof. unfold all_rows; simpl. rewrite map_app. rewrite !in_app_iff. simpl. intuition congruence. Qed.

Lemma all_rows_fact s row x :
  In x (all_rows (set_fact_rows (fact_rows s ++ [row]) s)) <->
  In x (all_rows s) \/ x = ("enzyme_facts", f_ec row).
Proof. unfold all_rows; simpl. rewrite map_app. rewrite !in_app_iff. simpl. intuition congruence. Qed.

Lemma all_rows_counts st ts ne np nt s :
  all_rows (set_counts st ts ne np nt s) = all_rows s.
Proof. reflexivity. Qed.

Lemma all_rows_flush_enzymes s x :
  In x (all_rows (snd (flush_enzymes s))) <-> In x (all_rows s).
Proof.
  unfold flush_enzymes, modify, all_rows; simpl.
  destruct (enzyme_rows s) as [|r rs] eqn:E; simpl; rewrite ?E; [reflexivity|].
  rewrite !in_app_iff, in_row_log_app, in_row_log_one. simpl. rewrite ?in_app_iff. tauto.
Qed.

Lemma all_rows_flush_proteins s x :
  In x (all_rows (snd (flush_proteins s))) <-> In x (all_rows s).
Proof.
  unfold flush_proteins, modify, all_rows; simpl.
  destruct (protein_rows s) as [|r rs] eqn:E; simpl; rewrite ?E; [reflexivity|].
  rewrite !in_app_iff, in_row_log_app, in_row_log_one. simpl. rewrite ?in_app_iff. tauto.
Qed.

Lemma all_rows_flush_facts s x :
  In x (all_rows (snd (flush_facts s))) <-> In x (all_rows s).
Proof.
  unfold flush_facts, modify, all_rows; simpl.
  destruct (fact_rows s) as [|r rs] eqn:E; simpl; rewrite ?E; [reflexivity|].
  rewrite !in_app_iff, in_row_log_app, in_row_log_one. simpl. rewrite ?in_app_iff. tauto.
Qed.

Lemma build_enzyme_row_ec ec entry r : build_enzyme_row ec entry = Ok r -> e_ec r = ec.
Proof.
  unfold build_enzyme_row. cbv [mbind result_bind rbind].
  repeat case_match; intros Hrow; try discriminate; injection Hrow as <-; reflexivity.
Qed.

Lemma build_protein_row_ec ec pid d r : build_protein_row ec pid d = Ok r -> p_ec r = ec.
Proof.
  unfold build_protein_row. cbv [mbind result_bind rbind].
  repeat case_match; intros Hrow; try discriminate; injection Hrow as <-; reflexivity.
Qed.

Lemma build_fact_row_ec ec k p r : build_fact_row ec k p = Ok r -> f_ec r = ec.
Proof.
  unfold build_fact_row. cbv [mbind result_bind rbind].
  repeat case_match; intros Hrow; try discriminate; injection Hrow as <-; reflexivity.
Qed.

Lemma rows_seen_same E s s' :
  (forall x, In x (all_rows s') <-> In x (all_rows s)) -> rows_seen E s -> rows_seen E s'.
Proof.
  intros Hx H x Hin. apply Hx in Hin. destruct (H x Hin) as [H1 H2].
  split; [exact H1 | apply Hx, H2].
Qed.

Lemma entry_seen_same E ec s s' :
  (forall x, In x (all_rows s') <-> In x (all_rows s)) ->
  entry_rows_seen E ec s -> entry_rows_seen E ec s'.
Proof.
  intros Hx [H Hen]. split; [apply (rows_seen_same E s); assumption | apply Hx, Hen].
Qed.

Lemma entry_seen_add E ec t s s' :
  In ec E -> (forall x, In x (all_rows s') <-> In x (all_rows s) \/ x = (t, ec)) ->
  entry_rows_seen E ec s -> entry_rows_seen E ec s'.
Proof.
  intros HE Hx [Hs Hen].
  assert (Hen' : In ("enzymes", ec) (all_rows s')) by (apply Hx; left; exact Hen).
  split; [|exact Hen'].
  intros x Hin. apply Hx in Hin as [Hin | ->].
  - destruct (Hs x Hin) as [H1 H2]. split; [exact H1 | apply Hx; left; exact H2].
  - simpl. split; assumption.
Qed.

Lemma entry_seen_enzyme E ec s s' :
  In ec E -> (forall x, In x (all_rows s') <-> In x (all_rows s) \/ x = ("enzymes", ec)) ->
  rows_seen E s -> entry_rows_seen E ec s'.
Proof.
  intros HE Hx Hs.
  assert (Hen' : In ("enzymes", ec) (all_rows s')) by (apply Hx; right; reflexivity).
  split; [|exact Hen'].
  intros x Hin. apply Hx in Hin as [Hin | ->].
  - destruct (Hs x Hin) as [H1 H2]. split; [exact H1 | apply Hx; left; exact H2].
  - simpl. split; assumption.
Qed.

Lemma entry_seen_counts E ec st ts ne np nt s :
  entry_rows_seen E ec s -> entry_rows_seen E ec (set_counts st ts ne np nt s).
Proof. intros H. exact H. Qed.

Lemma hoare_flush_full_json (P : run -> Prop) :
  (forall s, P s -> P (snd (flush_enzymes s))) ->
  (forall s, P s -> P (snd (flush_proteins s))) ->
  (forall s, P s -> P (snd (flush_facts s))) ->
  hoare P flush_full_json P.
Proof.
  intros He Hp Hf. unfold flush_full_json.
  apply (hoare_bind P P P); [apply hoare_get | intros s0 | auto].
  apply (hoare_bind P P P); [| intros _ | auto].
  { destruct (_ <=? _)%nat; [intros s Hs; apply He, Hs | apply hoare_ret]. }
  apply (hoare_bind P P P); [apply hoare_get | intros s1 | auto].
  apply (hoare_bind P P P); [| intros _ | auto].
  { destruct (_ <=? _)%nat; [intros s Hs; apply Hp, Hs | apply hoare_ret]. }
  apply (hoare_bind P P P); [apply hoare_get | intros s2 | auto].
  destruct (_ <=? _)%nat; [intros s Hs; apply Hf, Hs | apply hoare_ret].
Qed.

Lemma hoare_emit_fact E ec key payload :
  In ec E -> hoare (entry_rows_seen E ec) (emit_fact ec key payload) (entry_rows_seen E ec).
Proof.
  intros HE. unfold emit_fact. apply hoare_bind_lift; [|auto].
  intros row Hrow. apply hoare_modify. intros s Hs. apply entry_seen_counts.
  apply (entry_seen_add E ec "enzyme_facts" s); [exact HE | | exact Hs].
  intros x. rewrite all_rows_fact, (build_fact_row_ec _ _ _ _ Hrow). reflexivity.
Qed.

Lemma hoare_ingest_category E ec key items :
  In ec E -> hoare (entry_rows_seen E ec) (ingest_category ec key items) (entry_rows_seen E ec).
Proof.
  intros HE. unfold ingest_category.
  destruct (existsb _ _); [apply hoare_ret|].
  destruct (negb (truthy items)); [apply hoare_ret|].
  destruct items;
    first [ apply hoare_emit_fact; exact HE
          | apply hoare_for_each; intros item _; apply hoare_bind_lift; [|auto];
            intros p _; apply hoare_emit_fact; exact HE
          | apply hoare_bind_lift; [intros d _; apply hoare_emit_fact; exact HE | auto] ].
Qed.

Lemma hoare_ingest_entry E ec entry :
  In ec E -> hoare (rows_seen E) (ingest_entry ec entry) (rows_seen E).
Proof.
  intros HE. unfold ingest_entry.
  apply (hoare_bind _ (rows_seen E)); [apply hoare_modify; intros s Hs; exact Hs | intros _ | auto].
  apply hoare_bind_lift; [|auto]. intros row Hrow.
  apply (hoare_bind _ (entry_rows_seen E ec)); [| intros _ | intros s [Hs _]; exact Hs].
  { apply hoare_modify. intros s Hs. apply (entry_seen_enzyme E ec s); [exact HE | | exact Hs].
    intros x. rewrite all_rows_enzyme, (build_enzyme_row_ec _ _ _ Hrow). reflexivity. }
  apply (hoare_consequence _ (entry_rows_seen E ec)); [| intros s [Hs _]; exact Hs].
  apply hoare_bind_lift; [intros proteins _ | auto].
  apply hoare_bind_lift; [intros pitems _ | auto].
  apply (hoare_bind _ (entry_rows_seen E ec)); [| intros _ | auto].
  { apply hoare_for_each. intros kv _. apply hoare_bind_lift; [|auto].
    intros prow Hp. apply hoare_modify. intros s Hs. apply entry_seen_counts.
    apply (entry_seen_add E ec "proteins" s); [exact HE | | exact Hs].
    intros x. rewrite all_rows_protein, (build_protein_row_ec _ _ _ _ Hp). reflexivity. }
  apply hoare_bind_lift; [intros kvs _ | auto].
  apply (hoare_bind _ (entry_rows_seen E ec)); [| intros _ | auto].
  { apply hoare_for_each. intros kv _. apply hoare_ingest_category, HE. }
  apply hoare_flush_full_json; intros s; apply entry_seen_same;
    [apply all_rows_flush_enzymes | apply all_rows_flush_proteins | apply all_rows_flush_facts].
Qed.

Lemma hoare_json_pass E entries :
  (forall kv, In kv entries -> In (fst kv) E) ->
  hoare (rows_seen E) (json_pass entries) (rows_seen E).
Proof.
  intros HE. unfold json_pass.
  apply (hoare_bind _ (rows_seen E)); [| intros _ | auto].
  { apply hoare_for_each. intros kv Hkv. apply hoare_ingest_entry, HE, Hkv. }
  apply (hoare_bind _ (rows_seen E)); [| intros _ | auto].
  { intros s; apply rows_seen_same, all_rows_flush_enzymes. }
  apply (hoare_bind _ (rows_seen E)); [| intros _ | auto].
  { intros s; apply rows_seen_same, all_rows_flush_proteins. }
  intros s; apply rows_seen_same, all_rows_flush_facts.
Qed.

Lemma flush_enzymes_empty s : enzyme_rows (snd (flush_enzymes s)) = [].
Proof. unfold flush_enzymes, modify. simpl. destruct (enzyme_rows s) eqn:E; [exact E | reflexivity]. Qed.
Lemma flush_proteins_empty s : protein_rows (snd (flush_proteins s)) = [].
Proof. unfold flush_proteins, modify. simpl. destruct (protein_rows s) eqn:E; [exact E | reflexivity]. Qed.
Lemma flush_facts_empty s : fact_rows (snd (flush_facts s)) = [].
Proof. unfold flush_facts, modify. simpl. destruct (fact_rows s) eqn:E; [exact E | reflexivity]. Qed.
Lemma flush_enzymes_proteins s : protein_rows (snd (flush_enzymes s)) = protein_rows s.
Proof. unfold flush_enzymes, modify. simpl. destruct (enzyme_rows s); reflexivity. Qed.
Lemma flush_enzymes_facts s : fact_rows (snd (flush_enzymes s)) = fact_rows s.
Proof. unfold flush_enzymes, modify. simpl. destruct (enzyme_rows s); reflexivity. Qed.
Lemma flush_proteins_enzymes s : enzyme_rows (snd (flush_proteins s)) = enzyme_rows s.
Proof. unfold flush_proteins, modify. simpl. destruct (protein_rows s); reflexivity. Qed.
Lemma flush_proteins_facts s : fact_rows (snd (flush_proteins s)) = fact_rows s.
Proof. unfold flush_proteins, modify. simpl. destruct (protein_rows s); reflexivity. Qed.
Lemma flush_facts_enzymes s : enzyme_rows (snd (flush_facts s)) = enzyme_rows s.
Proof. unfold flush_facts, modify. simpl. destruct (fact_rows s); reflexivity. Qed.
Lemma flush_facts_proteins s : protein_rows (snd (flush_facts s)) = protein_rows s.
Proof. unfold flush_facts, modify. simpl. destruct (fact_rows s); reflexivity. Qed.

Lemma json_pass_ok entries s :
  fst (json_pass entries s) = Ok tt ->
  exists s1, snd (json_pass entries s) = snd (flush_facts (snd (flush_proteins (snd (flush_enzymes s1))))).
Proof.
  unfold json_pass. cbv [mbind M_bind].
  destruct (for_each _ _ s) as [[u|e] s1]; [|discriminate].
  intros _. exists s1. reflexivity.
Qed.

(** C1 (counterexample): the buffers are flushed table by table, so an
    entry with [BATCH_SIZE + 1] facts has its 501 [enzyme_facts] rows
    inserted at the end of the entry, and its [enzymes] row only by the
    final flush after them. *)
Lemma json_pass_facts_before_enzyme :
  row_log (store_at (snd (ingest (km_entry_fs 501) "in.json" "out.db" None)) "out.db")
  = repeat ("enzyme_facts", "1.1.1.1") 501 ++ [("enzymes", "1.1.1.1")].
Proof. vm_compute. reflexivity. Qed.

(** C1 (amended): every row the JSON pass writes, into [enzymes],
    [proteins] or [enzyme_facts], carries an EC number of the entries read
    in that pass; and when the pass completes, every EC number with a row
    in the store has an [enzymes] row in the store (not necessarily
    inserted before its facts). *)
Theorem json_pass_rows_from_entries (entries : list (string * pyval)) :
  (forall tbl ec, In (tbl, ec) (row_log (written (snd (json_pass entries run0)))) ->
     In ec (map fst entries)) /\
  (fst (json_pass entries run0) = Ok tt ->
   forall tbl ec, In (tbl, ec) (row_log (written (snd (json_pass entries run0)))) ->
     In ("enzymes", ec) (row_log (written (snd (json_pass entries run0))))).
Proof.
  assert (H : rows_seen (map fst entries) (snd (json_pass entries run0))).
  { apply hoare_json_pass; [intros kv Hkv; apply in_map, Hkv |].
    intros x Hx. destruct Hx. }
  split.
  - intros tbl ec Hin. apply (H (tbl, ec)). unfold all_rows. apply in_app_iff. left. exact Hin.
  - intros Hok tbl ec Hin.
    destruct (H (tbl, ec)) as [_ Hen]; [unfold all_rows; apply in_app_iff; left; exact Hin|].
    destruct (json_pass_ok entries run0 Hok) as [s1 Hs1].
    rewrite Hs1 in Hen |- *. unfold all_rows in Hen.
    rewrite flush_facts_enzymes, flush_proteins_enzymes, flush_enzymes_empty,
      flush_facts_proteins, flush_proteins_empty, flush_facts_empty in Hen.
    simpl in Hen. rewrite !app_nil_r in Hen. exact Hen.
Qed.

Lemma json_pass_rows_from_entries_witness :
  In "1.1.1.1" (map fst [("1.1.1.1", PDict [("km_value", PList [PDict [("value", PStr "1")]])])]) /\
  In ("enzymes", "1.1.1.1")
    (row_log (written (snd (json_pass
       [("1.1.1.1", PDict [("km_value", PList [PDict [("value", PStr "1")]])])] run0)))).
Proof.
  split.
  - apply (proj1 (json_pass_rows_from_entries
      [("1.1.1.1", PDict [("km_value", PList [PDict [("value", PStr "1")]])])]) "enzyme_facts").
    vm_compute. repeat (first [left; reflexivity | right]).
  - apply (proj2 (json_pass_rows_from_entries
      [("1.1.1.1", PDict [("km_value", PList [PDict [("value", PStr "1")]])])]))
      with (tbl := "enzyme_facts"); vm_compute; [reflexivity |].
    repeat (first [left; reflexivity | right]).
Defined.

(** *** The returned counts and the rows of the store *)

Lemma hoare_ok_bind {A B} (P : run -> Prop) (R : A -> run -> Prop) (Q : B -> run -> Prop)
    (m : M A) (f : A -> M B) :
  hoare_ok P m R -> (forall a, hoare_ok (R a) (f a) Q) -> hoare_ok P (x ← m; f x) Q.
Proof.
  intros Hm Hf s Hs. specialize (Hm s Hs). cbv [mbind M_bind].
  destruct (m s) as [[a|e] s']; [apply Hf, Hm | exact I].
Qed.

Lemma hoare_ok_lift {A B} (P : run -> Prop) (Q : B -> run -> Prop) (r : result A) (f : A -> M B) :
  (forall a, r = Ok a -> hoare_ok P (f a) Q) -> hoare_ok P (x ← lift r; f x) Q.
Proof.
  intros Hf s Hs. cbv [mbind M_bind lift].
  destruct r as [a|e]; [apply (Hf a eq_refl), Hs | exact I].
Qed.

Lemma hoare_ok_ret {A} (P : run -> Prop) (Q : A -> run -> Prop) (a : A) :
  (forall s, P s -> Q a s) -> hoare_ok P (mret a) Q.
Proof. intros H s Hs. apply H, Hs. Qed.

Lemma hoare_ok_modify (P : run -> Prop) (Q : unit -> run -> Prop) (f : run -> run) :
  (forall s, P s -> Q tt (f s)) -> hoare_ok P (modify f) Q.
Proof. intros H s Hs. apply H, Hs. Qed.

Lemma hoare_ok_get (P : run -> Prop) (Q : run -> run -> Prop) :
  (forall s, P s -> Q s s) -> hoare_ok P get_run Q.
Proof. intros H s Hs. apply H, Hs. Qed.

Lemma hoare_ok_step (P : run -> Prop) (Q : unit -> run -> Prop) (m : M unit) :
  (forall s, P s -> Q tt (snd (m s))) -> (forall s, fst (m s) = Ok tt) -> hoare_ok P m Q.
Proof.
  intros H Hm s Hs. specialize (H s Hs). specialize (Hm s).
  destruct (m s) as [[[]|e] s']; simpl in *; [exact H | discriminate].
Qed.

Lemma hoare_ok_for_each {A} (Inv : run -> Prop) (l : list A) (body : A -> M unit) :
  (forall x, In x l -> hoare_ok Inv (body x) (fun _ => Inv)) ->
  hoare_ok Inv (for_each l body) (fun _ => Inv).
Proof.
  induction l as [|x l IH]; intros Hb s Hs; [exact Hs|].
  rewrite for_each_cons.
  pose proof (Hb x (or_introl eq_refl) s Hs) as Hx.
  destruct (body x s) as [[u|e] s'] eqn:E; [|exact I].
  apply IH; [intros y Hy; apply Hb; right; exact Hy | exact Hx].
Qed.

Lemma count_in_app {X} (f : X -> bool) (l1 l2 : list X) :
  count_in f (l1 ++ l2) = (count_in f l1 + count_in f l2)%nat.
Proof. unfold count_in. rewrite List.filter_app, length_app. reflexivity. Qed.

Lemma count_all_batches {X} (g : batch -> list X) (f : X -> bool) (s : run) :
  count_in f (flat_map g (all_batches s)) =
  (count_in f (flat_map g (written s)) + count_in f (g (BEnzyme (enzyme_rows s))) +
   count_in f (g (BProtein (protein_rows s))) + count_in f (g (BFact (fact_rows s))) +
   count_in f (g (BText (text_rows s))))%nat.
Proof.
  unfold all_batches. rewrite flat_map_app, count_in_app. simpl.
  rewrite !count_in_app. change (count_in f []) with 0%nat. lia.
Qed.

Ltac flush_count_tac Eb Hg :=
  cbn [written enzyme_rows protein_rows fact_rows text_rows
       set_enzyme_rows set_protein_rows set_fact_rows set_text_rows set_written];
  rewrite flat_map_app, count_in_app, Hg; cbn [flat_map]; rewrite app_nil_r; rewrite ?Eb;
  change (count_in _ []) with 0%nat; lia.

Lemma count_flush_enzymes {X} (g : batch -> list X) f s :
  g (BEnzyme []) = [] ->
  count_in f (flat_map g (all_batches (snd (flush_enzymes s)))) = count_in f (flat_map g (all_batches s)).
Proof.
  intros Hg. unfold flush_enzymes, modify. rewrite !count_all_batches. cbn [snd].
  destruct (enzyme_rows s) as [|r rs] eqn:Eb; [rewrite Eb; reflexivity|]. flush_count_tac Eb Hg.
Qed.

Lemma count_flush_proteins {X} (g : batch -> list X) f s :
  g (BProtein []) = [] ->
  count_in f (flat_map g (all_batches (snd (flush_proteins s)))) = count_in f (flat_map g (all_batches s)).
Proof.
  intros Hg. unfold flush_proteins, modify. rewrite !count_all_batches. cbn [snd].
  destruct (protein_rows s) as [|r rs] eqn:Eb; [rewrite Eb; reflexivity|]. flush_count_tac Eb Hg.
Qed.

Lemma count_flush_facts {X} (g : batch -> list X) f s :
  g (BFact []) = [] ->
  count_in f (flat_map g (all_batches (snd (flush_facts s)))) = count_in f (flat_map g (all_batches s)).
Proof.
  intros Hg. unfold flush_facts, modify. rewrite !count_all_batches. cbn [snd].
  destruct (fact_rows s) as [|r rs] eqn:Eb; [rewrite Eb; reflexivity|]. flush_count_tac Eb Hg.
Qed.

Lemma count_flush_texts {X} (g : batch -> list X) f s :
  g (BText []) = [] ->
  count_in f (flat_map g (all_batches (snd (flush_texts s)))) = count_in f (flat_map g (all_batches s)).
Proof.
  intros Hg. unfold flush_texts, modify. rewrite !count_all_batches. cbn [snd].
  destruct (text_rows s) as [|r rs] eqn:Eb; [rewrite Eb; reflexivity|]. flush_count_tac Eb Hg.
Qed.

Lemma count_push_enzyme {X} (g : batch -> list X) f s r :
  (forall l, g (BEnzyme (l ++ [r])) = g (BEnzyme l) ++ g (BEnzyme [r])) ->
  count_in f (flat_map g (all_batches (set_enzyme_rows (enzyme_rows s ++ [r]) s))) =
  (count_in f (flat_map g (all_batches s)) + count_in f (g (BEnzyme [r])))%nat.
Proof. intros Hg. rewrite !count_all_batches. cbn [enzyme_rows set_enzyme_rows written protein_rows fact_rows text_rows]. rewrite Hg, count_in_app. lia. Qed.

Lemma count_push_protein {X} (g : batch -> list X) f s r :
  (forall l, g (BProtein (l ++ [r])) = g (BProtein l) ++ g (BProtein [r])) ->
  count_in f (flat_map g (all_batches (set_protein_rows (protein_rows s ++ [r]) s))) =
  (count_in f (flat_map g (all_batches s)) + count_in f (g (BProtein [r])))%nat.
Proof. intros Hg. rewrite !count_all_batches. cbn [enzyme_rows set_protein_rows written protein_rows fact_rows text_rows]. rewrite Hg, count_in_app. lia. Qed.

Lemma count_push_fact {X} (g : batch -> list X) f s r :
  (forall l, g (BFact (l ++ [r])) = g (BFact l) ++ g (BFact [r])) ->
  count_in f (flat_map g (all_batches (set_fact_rows (fact_rows s ++ [r]) s))) =
  (count_in f (flat_map g (all_batches s)) + count_in f (g (BFact [r])))%nat.
Proof. intros Hg. rewrite !count_all_batches. cbn [enzyme_rows set_fact_rows written protein_rows fact_rows text_rows]. rewrite Hg, count_in_app. lia. Qed.

Lemma count_push_text {X} (g : batch -> list X) f s r :
  (forall l, g (BText (l ++ [r])) = g (BText l) ++ g (BText [r])) ->
  count_in f (flat_map g (all_batches (set_text_rows (text_rows s ++ [r]) s))) =
  (count_in f (flat_map g (all_batches s)) + count_in f (g (BText [r])))%nat.
Proof. intros Hg. rewrite !count_all_batches. cbn [enzyme_rows set_text_rows written protein_rows fact_rows text_rows]. rewrite Hg, count_in_app. lia. Qed.

Lemma all_batches_counts st ts ne np nt s : all_batches (set_counts st ts ne np nt s) = all_batches s.
Proof. reflexivity. Qed.

Lemma counter_get_bump (key k : string) (c : list (string * nat)) :
  counter_get k (bump key c) = ((if String.eqb k key then 1 else 0) + counter_get k c)%nat.
Proof.
  unfold counter_get. induction c as [|[k' n] c IH]; cbn.
  - rewrite String.eqb_sym. destruct (String.eqb k key); reflexivity.
  - destruct (String.eqb_spec k' key) as [-> | Hne]; cbn.
    + rewrite (String.eqb_sym key k). destruct (String.eqb k key); reflexivity.
    + destruct (String.eqb_spec k' k) as [-> | Hne']; cbn.
      * destruct (String.eqb_spec k key); [congruence | reflexivity].
      * exact IH.
Qed.

Lemma sum_bump (key : string) (c : list (string * nat)) :
  fold_right (fun kv n => (snd kv + n)%nat) 0%nat (bump key c) =
  S (fold_right (fun kv n => (snd kv + n)%nat) 0%nat c).
Proof.
  induction c as [|[k' n] c IH]; cbn; [reflexivity|].
  destruct (String.eqb k' key); cbn; [lia | rewrite IH; lia].
Qed.

Ltac views_unfold := unfold stats_inv, table_rows, row_log, fact_categories, text_codes.
Ltac run_simpl :=
  cbn [stats_of s_enzyme_count s_fact_count s_protein_count s_category_counts
       s_text_fact_count s_text_field_counts written enzyme_rows protein_rows fact_rows
       text_rows stats text_stats enzyme_count protein_count text_fact_count set_counts
       set_written set_enzyme_rows set_protein_rows set_fact_rows set_text_rows] in *.

Lemma stats_inv_run0 : stats_inv 0 run0.
Proof. intros k. repeat split. Qed.

Lemma stats_inv_count_enzyme s :
  stats_inv 0 s ->
  stats_inv 1 (set_counts (stats s) (text_stats s) (S (enzyme_count s)) (protein_count s)
                 (text_fact_count s) s).
Proof. intros H k. specialize (H k). revert H. rewrite !all_batches_counts. run_simpl. lia. Qed.

Lemma stats_inv_push_enzyme s row :
  stats_inv 1 s -> stats_inv 0 (set_enzyme_rows (enzyme_rows s ++ [row]) s).
Proof.
  intros H k. specialize (H k). revert H. views_unfold.
  rewrite !count_push_enzyme by (intros; cbn; rewrite ?map_app; reflexivity).
  run_simpl. cbn. lia.
Qed.

Lemma stats_inv_push_protein s prow :
  stats_inv 0 s ->
  stats_inv 0 (set_counts (stats s) (text_stats s) (enzyme_count s) (S (protein_count s))
                 (text_fact_count s) (set_protein_rows (protein_rows s ++ [prow]) s)).
Proof.
  intros H k. specialize (H k). revert H. rewrite !all_batches_counts. views_unfold.
  rewrite !count_push_protein by (intros; cbn; rewrite ?map_app; reflexivity).
  run_simpl. cbn. lia.
Qed.

Lemma stats_inv_push_fact s key row :
  f_category row = key ->
  stats_inv 0 s ->
  stats_inv 0 (set_counts (bump key (stats s)) (text_stats s) (enzyme_count s) (protein_count s)
                 (text_fact_count s) (set_fact_rows (fact_rows s ++ [row]) s)).
Proof.
  intros Hc H k. specialize (H k). revert H. rewrite !all_batches_counts. views_unfold.
  rewrite !count_push_fact by (intros; cbn; rewrite ?map_app; reflexivity).
  run_simpl. rewrite sum_bump, counter_get_bump. cbn. rewrite Hc.
  destruct (String.eqb k key); cbn; lia.
Qed.

Lemma stats_inv_push_text s record :
  stats_inv 0 s ->
  stats_inv 0 (set_counts (stats s) (bump (t_code record) (text_stats s)) (enzyme_count s)
                 (protein_count s) (S (text_fact_count s)) (set_text_rows (text_rows s ++ [record]) s)).
Proof.
  intros H k. specialize (H k). revert H. rewrite !all_batches_counts. views_unfold.
  rewrite !count_push_text by (intros; cbn; rewrite ?map_app; reflexivity).
  run_simpl. rewrite counter_get_bump. cbn.
  destruct (String.eqb k (t_code record)); cbn; lia.
Qed.

Lemma stats_of_flush_enzymes s : stats_of (snd (flush_enzymes s)) = stats_of s.
Proof. unfold flush_enzymes, modify. cbn [snd]. destruct (enzyme_rows s); reflexivity. Qed.
Lemma stats_of_flush_proteins s : stats_of (snd (flush_proteins s)) = stats_of s.
Proof. unfold flush_proteins, modify. cbn [snd]. destruct (protein_rows s); reflexivity. Qed.
Lemma stats_of_flush_facts s : stats_of (snd (flush_facts s)) = stats_of s.
Proof. unfold flush_facts, modify. cbn [snd]. destruct (fact_rows s); reflexivity. Qed.
Lemma stats_of_flush_texts s : stats_of (snd (flush_texts s)) = stats_of s.
Proof. unfold flush_texts, modify. cbn [snd]. destruct (text_rows s); reflexivity. Qed.

Lemma stats_inv_flush_enzymes d s : stats_inv d s -> stats_inv d (snd (flush_enzymes s)).
Proof.
  intros H k. specialize (H k). revert H. views_unfold.
  rewrite stats_of_flush_enzymes, !count_flush_enzymes by reflexivity. exact id.
Qed.
Lemma stats_inv_flush_proteins d s : stats_inv d s -> stats_inv d (snd (flush_proteins s)).
Proof.
  intros H k. specialize (H k). revert H. views_unfold.
  rewrite stats_of_flush_proteins, !count_flush_proteins by reflexivity. exact id.
Qed.
Lemma stats_inv_flush_facts d s : stats_inv d s -> stats_inv d (snd (flush_facts s)).
Proof.
  intros H k. specialize (H k). revert H. views_unfold.
  rewrite stats_of_flush_facts, !count_flush_facts by reflexivity. exact id.
Qed.
Lemma stats_inv_flush_texts d s : stats_inv d s -> stats_inv d (snd (flush_texts s)).
Proof.
  intros H k. specialize (H k). revert H. views_unfold.
  rewrite stats_of_flush_texts, !count_flush_texts by reflexivity. exact id.
Qed.

Lemma build_fact_row_category ec k p r : build_fact_row ec k p = Ok r -> f_category r = k.
Proof.
  unfold build_fact_row. cbv [mbind result_bind rbind].
  repeat case_match; intros Hrow; try discriminate; injection Hrow as <-; reflexivity.
Qed.

Lemma flush_enzymes_texts s : text_rows (snd (flush_enzymes s)) = text_rows s.
Proof. unfold flush_enzymes, modify. cbn [snd]. destruct (enzyme_rows s); reflexivity. Qed.
Lemma flush_proteins_texts s : text_rows (snd (flush_proteins s)) = text_rows s.
Proof. unfold flush_proteins, modify. cbn [snd]. destruct (protein_rows s); reflexivity. Qed.
Lemma flush_facts_texts s : text_rows (snd (flush_facts s)) = text_rows s.
Proof. unfold flush_facts, modify. cbn [snd]. destruct (fact_rows s); reflexivity. Qed.
Lemma flush_texts_enzymes s : enzyme_rows (snd (flush_texts s)) = enzyme_rows s.
Proof. unfold flush_texts, modify. cbn [snd]. destruct (text_rows s); reflexivity. Qed.
Lemma flush_texts_proteins s : protein_rows (snd (flush_texts s)) = protein_rows s.
Proof. unfold flush_texts, modify. cbn [snd]. destruct (text_rows s); reflexivity. Qed.
Lemma flush_texts_facts s : fact_rows (snd (flush_texts s)) = fact_rows s.
Proof. unfold flush_texts, modify. cbn [snd]. destruct (text_rows s); reflexivity. Qed.
Lemma flush_texts_empty s : text_rows (snd (flush_texts s)) = [].
Proof. unfold flush_texts, modify. cbn [snd]. destruct (text_rows s) eqn:E; [exact E | reflexivity]. Qed.

Lemma hoare_ok_flush (P : run -> Prop) (fl : M unit) :
  fl = flush_enzymes \/ fl = flush_proteins \/ fl = flush_facts \/ fl = flush_texts ->
  (forall s, P s -> P (snd (fl s))) -> hoare_ok P fl (fun _ => P).
Proof.
  intros Hfl H. apply hoare_ok_step; [exact H|].
  intros s. destruct Hfl as [-> | [-> | [-> | ->]]]; reflexivity.
Qed.


Lemma json_inv_flush_enzymes s : json_inv s -> json_inv (snd (flush_enzymes s)).
Proof. intros [H Ht]. split; [apply stats_inv_flush_enzymes, H | rewrite flush_enzymes_texts; exact Ht]. Qed.
Lemma json_inv_flush_proteins s : json_inv s -> json_inv (snd (flush_proteins s)).
Proof. intros [H Ht]. split; [apply stats_inv_flush_proteins, H | rewrite flush_proteins_texts; exact Ht]. Qed.
Lemma json_inv_flush_facts s : json_inv s -> json_inv (snd (flush_facts s)).
Proof. intros [H Ht]. split; [apply stats_inv_flush_facts, H | rewrite flush_facts_texts; exact Ht]. Qed.

Lemma hoare_ok_flush_full_json (P : run -> Prop) :
  (forall s, P s -> P (snd (flush_enzymes s))) ->
  (forall s, P s -> P (snd (flush_proteins s))) ->
  (forall s, P s -> P (snd (flush_facts s))) ->
  hoare_ok P flush_full_json (fun _ => P).
Proof.
  intros He Hp Hf. unfold flush_full_json.
  apply (hoare_ok_bind _ (fun _ => P)); [apply hoare_ok_get; auto | intros s0].
  apply (hoare_ok_bind _ (fun _ => P)).
  { destruct (_ <=? _)%nat; [apply hoare_ok_flush; auto | apply hoare_ok_ret; auto]. }
  intros _. apply (hoare_ok_bind _ (fun _ => P)); [apply hoare_ok_get; auto | intros s1].
  apply (hoare_ok_bind _ (fun _ => P)).
  { destruct (_ <=? _)%nat; [apply hoare_ok_flush; auto | apply hoare_ok_ret; auto]. }
  intros _. apply (hoare_ok_bind _ (fun _ => P)); [apply hoare_ok_get; auto | intros s2].
  destruct (_ <=? _)%nat; [apply hoare_ok_flush; auto | apply hoare_ok_ret; auto].
Qed.

Lemma hoare_ok_emit_fact ec key payload :
  hoare_ok json_inv (emit_fact ec key payload) (fun _ => json_inv).
Proof.
  unfold emit_fact. apply hoare_ok_lift. intros row Hrow.
  apply hoare_ok_modify. intros s [H Ht]. split; [|exact Ht].
  apply stats_inv_push_fact; [apply (build_fact_row_category ec key payload), Hrow | exact H].
Qed.

Lemma hoare_ok_ingest_category ec key items :
  hoare_ok json_inv (ingest_category ec key items) (fun _ => json_inv).
Proof.
  unfold ingest_category.
  destruct (existsb _ _); [apply hoare_ok_ret; auto|].
  destruct (negb (truthy items)); [apply hoare_ok_ret; auto|].
  destruct items;
    first [ apply hoare_ok_emit_fact
          | apply hoare_ok_for_each; intros item _; apply hoare_ok_lift;
            intros p _; apply hoare_ok_emit_fact
          | apply hoare_ok_lift; intros d _; apply hoare_ok_emit_fact ].
Qed.

Lemma hoare_ok_ingest_entry ec entry :
  hoare_ok json_inv (ingest_entry ec entry) (fun _ => json_inv).
Proof.
  unfold ingest_entry.
  apply (hoare_ok_bind _ (fun _ s => stats_inv 1 s /\ text_rows s = [])).
  { apply hoare_ok_modify. intros s [H Ht]. split; [apply stats_inv_count_enzyme, H | exact Ht]. }
  intros _. apply hoare_ok_lift. intros row _.
  apply (hoare_ok_bind _ (fun _ => json_inv)).
  { apply hoare_ok_modify. intros s [H Ht]. split; [apply stats_inv_push_enzyme, H | exact Ht]. }
  intros _. apply hoare_ok_lift. intros proteins _. apply hoare_ok_lift. intros pitems _.
  apply (hoare_ok_bind _ (fun _ => json_inv)).
  { apply hoare_ok_for_each. intros kv _. apply hoare_ok_lift. intros prow _.
    apply hoare_ok_modify. intros s [H Ht]. split; [apply stats_inv_push_protein, H | exact Ht]. }
  intros _. apply hoare_ok_lift. intros kvs _.
  apply (hoare_ok_bind _ (fun _ => json_inv)).
  { apply hoare_ok_for_each. intros kv _. apply hoare_ok_ingest_category. }
  intros _. apply hoare_ok_flush_full_json;
    [apply json_inv_flush_enzymes | apply json_inv_flush_proteins | apply json_inv_flush_facts].
Qed.

Lemma hoare_ok_json_pass entries :
  hoare_ok json_inv (json_pass entries)
    (fun _ s => json_inv s /\ enzyme_rows s = [] /\ protein_rows s = [] /\ fact_rows s = []).
Proof.
  unfold json_pass.
  apply (hoare_ok_bind _ (fun _ => json_inv)).
  { apply hoare_ok_for_each. intros kv _. apply hoare_ok_ingest_entry. }
  intros _. apply (hoare_ok_bind _ (fun _ s => json_inv s /\ enzyme_rows s = [])).
  { apply hoare_ok_step; [|intros ?; reflexivity]. intros s H.
    split; [apply json_inv_flush_enzymes, H | apply flush_enzymes_empty]. }
  intros _. apply (hoare_ok_bind _ (fun _ s => json_inv s /\ enzyme_rows s = [] /\ protein_rows s = [])).
  { apply hoare_ok_step; [|intros ?; reflexivity]. intros s [H He].
    split; [apply json_inv_flush_proteins, H|].
    rewrite flush_proteins_enzymes. split; [exact He | apply flush_proteins_empty]. }
  intros _. apply hoare_ok_step; [|intros ?; reflexivity]. intros s [H [He Hp]].
  split; [apply json_inv_flush_facts, H|].
  rewrite flush_facts_enzymes, flush_facts_proteins.
  split; [exact He | split; [exact Hp | apply flush_facts_empty]].
Qed.


Lemma text_inv_flush_texts s : text_inv s -> text_inv (snd (flush_texts s)).
Proof.
  intros (H & He & Hp & Hf). split; [apply stats_inv_flush_texts, H|].
  rewrite flush_texts_enzymes, flush_texts_proteins, flush_texts_facts. auto.
Qed.

Lemma hoare_ok_text_pass records :
  hoare_ok text_inv (text_pass records) (fun _ s => text_inv s /\ text_rows s = []).
Proof.
  unfold text_pass. apply (hoare_ok_bind _ (fun _ => text_inv)).
  { apply hoare_ok_for_each. intros record _. unfold text_record.
    apply (hoare_ok_bind _ (fun _ => text_inv)).
    { apply hoare_ok_modify. intros s (H & He & Hp & Hf).
      split; [apply stats_inv_push_text, H | cbn; auto]. }
    intros _. apply (hoare_ok_bind _ (fun _ => text_inv)); [apply hoare_ok_get; auto | intros s0].
    destruct (_ <=? _)%nat; [apply hoare_ok_flush; [auto | apply text_inv_flush_texts] | apply hoare_ok_ret; auto]. }
  intros _. apply hoare_ok_step; [|intros ?; reflexivity]. intros s H.
  split; [apply text_inv_flush_texts, H | apply flush_texts_empty].
Qed.

Lemma hoare_ok_ingest_body (fs1 : gmap string file) (json_path : string) (txt_path : option string) :
  hoare_ok (fun s => s = run0)
    (entries ← lift (read_entries (fs1 !! json_path));
     _ ← json_pass entries;
     _ ← (match txt_path with
          | Some p => text ← lift (read_text (fs1 !! p));
                      text_pass (iter_text_records text)
          | None => mret tt
          end);
     s ← get_run;
     mret (stats_of s))
    (fun st s => st = stats_of s /\ text_inv s /\ text_rows s = []).
Proof.
  apply hoare_ok_lift. intros entries _.
  apply (hoare_ok_bind _ (fun _ s => text_inv s /\ text_rows s = [])).
  { intros s ->. pose proof (hoare_ok_json_pass entries run0) as H.
    destruct (json_pass entries run0) as [[u|e] s']; [|exact I].
    destruct H as ([Hs Ht] & He & Hp & Hf); [split; [apply stats_inv_run0 | reflexivity]|].
    split; [split; [exact Hs | auto] | exact Ht]. }
  intros _. apply (hoare_ok_bind _ (fun _ s => text_inv s /\ text_rows s = [])).
  { destruct txt_path as [p|]; [|apply hoare_ok_ret; auto].
    apply hoare_ok_lift. intros text _. intros s [H _]. apply hoare_ok_text_pass, H. }
  intros _. apply (hoare_ok_bind _ (fun s s' => s = s' /\ text_inv s /\ text_rows s = [])).
  { apply hoare_ok_get. auto. }
  intros s0. apply hoare_ok_ret. intros s (-> & H). auto.
Qed.

Lemma ingest_stats_core fs json_path db_path txt_path st fs' :
  ingest fs json_path db_path txt_path = (Ok st, fs') ->
  exists s, st = stats_of s /\ store_at fs' db_path = written s /\ text_inv s /\ text_rows s = [].
Proof.
  pose proof (hoare_ok_ingest_body (<[db_path := FDb []]> (delete db_path fs))
                json_path txt_path run0 eq_refl) as Hb.
  unfold ingest.
  destruct (fs !! json_path) as [f|]; [|intros H; inversion H].
  destruct txt_path as [p|]; [destruct (fs !! p) as [fp|]; [|intros H; inversion H]|]; cbv zeta.
  all: match goal with
  | |- context [?b run0] =>
      match type of b with
      | M ingestion_stats => destruct (b run0) as [[st0|e] s] eqn:Eb
      end
  end.
  all: intros H; inversion H; subst.
  all: destruct Hb as (-> & Hi & Ht); exists s.
  all: split; [reflexivity | split; [unfold store_at; rewrite lookup_insert_eq; reflexivity | auto]].
Qed.

Lemma views_written s :
  text_inv s -> text_rows s = [] ->
  (forall t, table_rows t (all_batches s) = table_rows t (written s)) /\
  fact_categories (all_batches s) = fact_categories (written s) /\
  text_codes (all_batches s) = text_codes (written s).
Proof.
  intros (_ & He & Hp & Hf) Ht. unfold all_batches. rewrite He, Hp, Hf, Ht.
  unfold table_rows, row_log, fact_categories, text_codes. rewrite !flat_map_app.
  cbn [flat_map batch_rows map]. rewrite !app_nil_r. auto.
Qed.

Theorem ingest_stats_match_store fs json_path db_path txt_path st fs' :
  ingest fs json_path db_path txt_path = (Ok st, fs') ->
  s_enzyme_count st = table_rows "enzymes" (store_at fs' db_path) /\
  s_protein_count st = table_rows "proteins" (store_at fs' db_path) /\
  s_fact_count st = table_rows "enzyme_facts" (store_at fs' db_path) /\
  s_text_fact_count st = table_rows "text_facts" (store_at fs' db_path).
Proof.
  intros H. destruct (ingest_stats_core _ _ _ _ _ _ H) as (s & -> & -> & Hi & Ht).
  destruct (views_written s Hi Ht) as (Hv & _ & _).
  destruct Hi as (Hs & _). destruct (Hs EmptyString) as (H1 & H2 & H3 & H4 & _).
  rewrite <- !Hv. repeat split; assumption.
Qed.

Lemma ingest_stats_match_store_witness :
  let st := {| s_enzyme_count := 1; s_fact_count := 2; s_protein_count := 1;
               s_category_counts := [("km_value", 2%nat)]; s_text_fact_count := 2;
               s_text_field_counts := [("AB", 1%nat); ("CD", 1%nat)] |} in
  let fs' := snd (ingest stats_example_fs "in.json" "out.db" (Some "in.txt")) in
  s_enzyme_count st = table_rows "enzymes" (store_at fs' "out.db") /\
  s_protein_count st = table_rows "proteins" (store_at fs' "out.db") /\
  s_fact_count st = table_rows "enzyme_facts" (store_at fs' "out.db") /\
  s_text_fact_count st = table_rows "text_facts" (store_at fs' "out.db").
Proof.
  apply (ingest_stats_match_store stats_example_fs "in.json" "out.db" (Some "in.txt")).
  vm_compute. reflexivity.
Defined.

Theorem ingest_counters_match_store fs json_path db_path txt_path st fs' :
  ingest fs json_path db_path txt_path = (Ok st, fs') ->
  forall k,
  counter_get k (s_category_counts st) = count_in (String.eqb k) (fact_categories (store_at fs' db_path)) /\
  counter_get k (s_text_field_counts st) = count_in (String.eqb k) (text_codes (store_at fs' db_path)).
Proof.
  intros H k. destruct (ingest_stats_core _ _ _ _ _ _ H) as (s & -> & -> & Hi & Ht).
  destruct (views_written s Hi Ht) as (_ & Hf & Hc).
  destruct Hi as (Hs & _). destruct (Hs k) as (_ & _ & _ & _ & H5 & H6).
  rewrite <- Hf, <- Hc. split; assumption.
Qed.

Lemma ingest_counters_match_store_witness :
  let st := {| s_enzyme_count := 1; s_fact_count := 2; s_protein_count := 1;
               s_category_counts := [("km_value", 2%nat)]; s_text_fact_count := 2;
               s_text_field_counts := [("AB", 1%nat); ("CD", 1%nat)] |} in
  let fs' := snd (ingest stats_example_fs "in.json" "out.db" (Some "in.txt")) in
  counter_get "km_value" (s_category_counts st) =
    count_in (String.eqb "km_value") (fact_categories (store_at fs' "out.db")) /\
  counter_get "km_value" (s_text_field_counts st) =
    count_in (String.eqb "km_value") (text_codes (store_at fs' "out.db")).
Proof.
  apply (ingest_counters_match_store stats_example_fs "in.json" "out.db" (Some "in.txt")).
  vm_compute. reflexivity.
Defined.

(** *** Further properties of the code *)

Lemma json_dumps_dec (v : pyval) :
  (has_dec v = true /\ json_dumps v = Raise TypeError) \/
  (has_dec v = false /\ exists s, json_dumps v = Ok s).
Proof.
  revert v. fix IH 1. intros v. destruct v as [| | | | |l|kvs].
  1-5: simpl; eauto.
  - induction l as [|x rest IHl].
    + right; simpl; eauto.
    + simpl. simpl in IHl.
      match type of IHl with ((?gb rest = true) /\ _) \/ _ => destruct (gb rest) end;
      match type of IHl with context [mbind _ (?gr rest)] => destruct (gr rest) eqn:Er end;
      destruct (IH x) as [[-> Ex] | [-> [sx Ex]]]; rewrite Ex; simpl;
      destruct IHl as [[Hb Hr] | [Hb [s1 Hr]]]; try discriminate; eauto.
  - induction kvs as [|[k x] rest IHl].
    + right; simpl; eauto.
    + simpl. simpl in IHl.
      match type of IHl with ((?gb rest = true) /\ _) \/ _ => destruct (gb rest) end;
      match type of IHl with context [mbind _ (?gr rest)] => destruct (gr rest) eqn:Er end;
      destruct (IH x) as [[-> Ex] | [-> [sx Ex]]]; rewrite Ex; simpl;
      destruct IHl as [[Hb Hr] | [Hb [s1 Hr]]]; try discriminate; eauto.
Qed.

Lemma parse_value_ok (v : string) : exists p, parse_value v = Ok p.
Proof.
  rewrite parse_value_unfold. destruct (body_context (py_strip v)) as [body context].
  destruct (low_high_total py_float py_float_cases (findall NUMERIC_RE body)) as (l & h & E & _).
  rewrite E. eexists; reflexivity.
Qed.

Lemma context_fallback_dict (kvs : list (string * pyval)) (keys : list string) :
  exists c, context_fallback (PDict kvs) keys = Ok c.
Proof.
  induction keys as [|k rest IH]; simpl; [eexists; reflexivity|].
  destruct (truthy (default PNone (assoc_str k kvs))); [eexists; reflexivity | exact IH].
Qed.

(** The protein row ([ingest], the [protein_rows.append] of the protein
    loop): a protein detail that is a JSON object gives a row exactly when
    it holds no non-integer number at any depth; otherwise [json.dumps]
    raises [TypeError].  A detail that is not an object raises
    [AttributeError] at [detail.get]. *)
Theorem build_protein_row_decimal (ec protein_id : string) (detail : pyval) :
  match detail with
  | PDict _ =>
      if has_dec detail then build_protein_row ec protein_id detail = Raise TypeError
      else exists row, build_protein_row ec protein_id detail = Ok row
  | _ => build_protein_row ec protein_id detail = Raise AttributeError
  end.
Proof.
  destruct detail as [| | | | | |kvs]; try reflexivity.
  unfold build_protein_row. simpl py_get. cbv [mbind result_bind rbind].
  destruct (json_dumps_dec (PDict kvs)) as [[-> E] | [-> [s E]]]; rewrite E; eauto.
Qed.

(** [_build_fact_row]: a payload that is a JSON object gives a row exactly
    when it holds no non-integer number at any depth; otherwise
    [json.dumps] raises [TypeError] ([_parse_value] and the context
    fallback never raise on it).  A payload that is not an object raises
    [AttributeError] at [payload.get]. *)
Theorem build_fact_row_decimal (ec category : string) (payload : pyval) :
  match payload with
  | PDict _ =>
      if has_dec payload then build_fact_row ec category payload = Raise TypeError
      else exists row, build_fact_row ec category payload = Ok row
  | _ => build_fact_row ec category payload = Raise AttributeError
  end.
Proof.
  destruct payload as [| | | | | |kvs]; try reflexivity.
  unfold build_fact_row. simpl py_get. cbv [mbind result_bind rbind].
  assert (Hp : exists p, match default PNone (assoc_str "value" kvs) with
                         | PStr v => parse_value v | _ => Ok (None, None, None, None) end = Ok p)
    by (destruct (default PNone (assoc_str "value" kvs)); try (eexists; reflexivity); apply parse_value_ok).
  destruct Hp as [[[[low high] unit] context] Hp]. rewrite Hp.
  destruct (json_dumps_dec (PDict kvs)) as [[-> E] | [-> [s E]]]; rewrite E; [reflexivity|].
  destruct context as [c|]; [eexists; reflexivity|].
  destruct (context_fallback_dict kvs ["organism"; "substrate"; "ligand"; "tissue"]) as [c Ec].
  rewrite Ec. eexists; reflexivity.
Qed.

(** [_iter_text_records]: a line starting with [///] splits the file: the
    records of [pre], the line and [post] are the records of [pre] followed
    by those of [post] read on their own. *)
Theorem scan_text_lines_terminator (pre post : list string) (l : string) :
  startswith "///" l = true ->
  scan_text_lines (pre ++ l :: post) = scan_text_lines pre ++ scan_text_lines post.
Proof.
  intros Hl. unfold scan_text_lines. rewrite text_steps_app.
  destruct (text_steps tstate0 pre) as [st1 o1].
  simpl. rewrite (text_step_terminator st1 l Hl).
  destruct (text_steps tstate0 post) as [st2 o2].
  rewrite <- !app_assoc. reflexivity.
Qed.

(** [_iter_text_records]: lines before the first line starting with
    [ID\t] add no record and change nothing after them. *)
Theorem scan_text_lines_preamble (pre post : list string) :
  (forall l, In l pre -> startswith ID_TAB l = false) ->
  scan_text_lines (pre ++ post) = scan_text_lines post.
Proof.
  intros Hid. unfold scan_text_lines. rewrite text_steps_app.
  rewrite (text_steps_outside pre Hid). simpl.
  destruct (text_steps tstate0 post) as [st2 o2]. reflexivity.
Qed.

Lemma flush_st_ok (st : tstate) : tstate_ok st -> Forall text_row_ok (flush_st st).
Proof.
  intros [Hc He]. unfold flush_st, flush_text_record.
  destruct (current_ec st) as [e|]; [|constructor].
  destruct (current_code st) as [c|]; [|constructor].
  destruct (buffer st) as [|b bs]; [constructor|].
  destruct (String.eqb _ EmptyString) eqn:Ev; [constructor|].
  constructor; [|constructor].
  apply String.eqb_neq in Ev.
  destruct (Hc c eq_refl) as [Hc1 Hc2].
  repeat split; simpl; auto using py_strip_idem.
Qed.

Lemma tstate0_ok : tstate_ok tstate0.
Proof. split; intros ? H; discriminate H. Qed.

Lemma text_step_ok (st : tstate) (l : string) :
  tstate_ok st ->
  tstate_ok (fst (text_step st l)) /\ Forall text_row_ok (snd (text_step st l)).
Proof.
  intros Hst. pose proof (flush_st_ok st Hst) as Hf.
  assert (He : forall e, current_ec st = Some e -> py_strip e = e) by apply Hst.
  unfold text_step.
  destruct (String.eqb l EmptyString); [split; [exact Hst | constructor]|].
  destruct (startswith "///" l); [split; [apply tstate0_ok | exact Hf]|].
  destruct (startswith ID_TAB l).
  { split; [|exact Hf]. split; simpl; [intros ? H; discriminate H|].
    intros e H; injection H as <-. apply py_strip_idem. }
  destruct (current_ec st) as [ec|]; [|split; [exact Hst | constructor]].
  destruct (startswith "*" l); [split; [exact Hst | constructor]|].
  destruct (startswith (String tab EmptyString) l || startswith " " l).
  { destruct (current_code st) as [c|] eqn:Ec; [|split; [exact Hst | constructor]].
    split; [|constructor]. split; simpl; intros ? H; [apply (proj1 Hst); rewrite Ec; exact H | exact (He _ H)]. }
  destruct (has_char tab l).
  - destruct (String.eqb (py_strip (nth 0 (split_once tab l) EmptyString)) EmptyString) eqn:Ecode.
    + split; [exact Hst | constructor].
    + apply String.eqb_neq in Ecode. split.
      * split; simpl; [|exact He].
        intros c H; injection H as <-. split; [exact Ecode | apply py_strip_idem].
      * simpl. destruct (current_code st); [exact Hf | constructor].
  - split; [split; simpl; [intros ? H; discriminate H | exact He] | exact Hf].
Qed.

Lemma text_steps_ok (lines : list string) : forall st,
  tstate_ok st ->
  tstate_ok (fst (text_steps st lines)) /\ Forall text_row_ok (snd (text_steps st lines)).
Proof.
  induction lines as [|l rest IH]; intros st Hst; simpl; [split; [exact Hst | constructor]|].
  destruct (text_step_ok st l Hst) as [H1 H2].
  destruct (text_step st l) as [st1 o1]. simpl in H1, H2.
  destruct (IH st1 H1) as [H3 H4].
  destruct (text_steps st1 rest) as [st2 o2]. simpl in H3, H4 |- *.
  split; [exact H3 | apply Forall_app; split; assumption].
Qed.

Lemma scan_text_lines_all_ok (lines : list string) : Forall text_row_ok (scan_text_lines lines).
Proof.
  unfold scan_text_lines.
  destruct (text_steps_ok lines tstate0 tstate0_ok) as [H1 H2].
  destruct (text_steps tstate0 lines) as [st o]. simpl in H1, H2.
  apply Forall_app; split; [exact H2 | apply flush_st_ok, H1].
Qed.

(** [_iter_text_records]: every record has a non-empty, stripped value and
    field code, and a stripped EC number. *)
Theorem iter_text_records_well_formed (text : string) (r : text_row) :
  In r (iter_text_records text) ->
  t_value r <> EmptyString /\ py_strip (t_value r) = t_value r /\
  t_code r <> EmptyString /\ py_strip (t_code r) = t_code r /\
  py_strip (t_ec r) = t_ec r.
Proof.
  intros Hin. pose proof (scan_text_lines_all_ok (file_lines text)) as Hall.
  rewrite List.Forall_forall in Hall. exact (Hall r Hin).
Qed.

Lemma py_len_or (v d : pyval) :
  sized d = true -> truthy d = false ->
  (negb (truthy v) || sized v = true /\ exists n, py_len (py_or v d) = Ok n) \/
  (negb (truthy v) || sized v = false /\ py_len (py_or v d) = Raise TypeError).
Proof.
  intros Hs Ht. unfold py_or.
  destruct (truthy v) eqn:Ev; simpl.
  - destruct v; simpl; try (right; split; reflexivity); left; split; eauto.
  - left; split; [reflexivity|]. destruct d; try discriminate Hs; eexists; reflexivity.
Qed.

(** [_build_enzyme_row] on a JSON object: it returns a row exactly when
    each of [protein], [synonyms], [reaction], [km_value],
    [turnover_number] and [inhibitor] is false (missing, empty, zero) or
    has a length (a string, list or object), and [reaction] is not a
    non-empty object ([reactions[0]] on it raises [KeyError]). *)
Theorem build_enzyme_row_ok (ec : string) (kvs : list (string * pyval)) :
  (exists row, build_enzyme_row ec (PDict kvs) = Ok row) <->
  forallb (fun k => negb (truthy (entry_field kvs k)) || sized (entry_field kvs k))
    ["protein"; "synonyms"; "reaction"; "km_value"; "turnover_number"; "inhibitor"] = true /\
  match entry_field kvs "reaction" with PDict (_ :: _) => False | _ => True end.
Proof.
  unfold build_enzyme_row, get_or. simpl py_get. cbv [mbind result_bind rbind].
  fold (entry_field kvs "protein") (entry_field kvs "synonyms") (entry_field kvs "reaction")
       (entry_field kvs "km_value") (entry_field kvs "turnover_number") (entry_field kvs "inhibitor").
  simpl forallb.
  generalize (entry_field kvs "protein") (entry_field kvs "synonyms") (entry_field kvs "reaction")
             (entry_field kvs "km_value") (entry_field kvs "turnover_number") (entry_field kvs "inhibitor").
  intros p sy r km tn inh.
  destruct (py_len_or p (PDict []) eq_refl eq_refl) as [[Hp [np Ep]] | [Hp Ep]]; rewrite ?Ep, ?Hp;
  (destruct (py_len_or sy (PList []) eq_refl eq_refl) as [[Hs [ns Es]] | [Hs Es]]; rewrite ?Es, ?Hs);
  (destruct (py_len_or km (PList []) eq_refl eq_refl) as [[Hk [nk Ek]] | [Hk Ek]]; rewrite ?Ek, ?Hk);
  (destruct (py_len_or tn (PList []) eq_refl eq_refl) as [[Ht [nt Et]] | [Ht Et]]; rewrite ?Et, ?Ht);
  (destruct (py_len_or inh (PList []) eq_refl eq_refl) as [[Hi [ni Ei]] | [Hi Ei]]; rewrite ?Ei, ?Hi);
  (destruct r as [|[]|z|lit|[|c t]|[|x l]|[|[k v] kvs']];
   try destruct (Z.eqb z 0) eqn:Ez; try destruct (mantissa_zero lit) eqn:Em; try destruct x);
  simpl; unfold py_or, truthy; rewrite ?Ez, ?Em; simpl; rewrite ?Ez, ?Em; simpl;
  first [ split; [intros [? Hx]; discriminate Hx | intros [Hx _]; discriminate Hx]
        | split; [intros [? Hx]; discriminate Hx | intros [_ []]]
        | split; [intros _; split; [reflexivity | exact I] | intros _; eexists; reflexivity] ].
Qed.

(** [ingest] with the store at the path of the JSON input: once the input
    checks pass, the input is unlinked and replaced by the new store, which
    is then read as JSON; the run raises and leaves an empty store where the
    input was. *)
Theorem ingest_same_path_loses_input (fs : gmap string file) (path : string)
    (txt_path : option string) :
  is_Some (fs !! path) ->
  match txt_path with Some p => is_Some (fs !! p) | None => True end ->
  ingest fs path path txt_path = (Raise JSONError, <[path := FDb []]> fs).
Proof.
  intros [f Hf] Ht. unfold ingest. rewrite Hf.
  assert (Hm : match txt_path with
               | Some p => match fs !! p with None => Some p | Some _ => None end
               | None => None end = None).
  { destruct txt_path as [p|]; [|reflexivity]. destruct Ht as [g Hg]. rewrite Hg. reflexivity. }
  rewrite Hm. cbv zeta. rewrite lookup_insert_eq. simpl.
  rewrite insert_insert_eq, insert_delete_eq. reflexivity.
Qed.


(** [_join]: it returns [None] exactly on a false value; on a list of
    strings it is [None] for the empty list and otherwise the strings joined
    with [";"]; on a non-empty list of [None] items it returns the empty
    string, not [None]. *)
Theorem py_join_cases :
  (forall v, py_join v = None <-> truthy v = false) /\
  (forall l : list string, py_join (PList (map PStr l)) = join_tokens l) /\
  (forall n, py_join (PList (repeat PNone (S n))) = Some EmptyString).
Proof.
  split; [|split].
  - intros v. unfold py_join. destruct (truthy v) eqn:E; simpl; [|tauto].
    split; [|discriminate]. destruct v; discriminate.
  - assert (Hm : forall l, map py_str (List.filter (fun x => match x with PNone => false | _ => true end)
                                                    (map PStr l)) = l)
      by (induction l as [|t l IH]; [reflexivity | simpl; rewrite IH; reflexivity]).
    intros [|s l]; [reflexivity|]. unfold py_join. rewrite Hm. reflexivity.
  - intros n. unfold py_join. simpl. f_equal.
    induction n as [|n IH]; [reflexivity|]. exact IH.
Qed.

Lemma insert_desc_perm (x : string * nat) (l : list (string * nat)) :
  Permutation (insert_desc x l) (x :: l).
Proof.
  induction l as [|y l IH]; simpl; [reflexivity|].
  destruct (snd y <? snd x)%nat; [reflexivity|].
  rewrite IH. apply perm_swap.
Qed.

Lemma sort_desc_perm_acc (l acc : list (string * nat)) :
  Permutation (fold_left (fun acc x => insert_desc x acc) l acc) (rev l ++ acc).
Proof.
  revert acc; induction l as [|x l IH]; intros acc; simpl; [reflexivity|].
  rewrite IH. rewrite <- app_assoc. simpl.
  apply Permutation_app_head, insert_desc_perm.
Qed.

Lemma sort_desc_perm (l : list (string * nat)) : Permutation (sort_desc l) l.
Proof.
  unfold sort_desc. rewrite sort_desc_perm_acc, app_nil_r.
  symmetry. apply Permutation_rev.
Qed.

Lemma insert_desc_sorted (x : string * nat) (l : list (string * nat)) :
  StronglySorted desc l -> StronglySorted desc (insert_desc x l).
Proof.
  induction l as [|y l IH]; intros Hs; simpl.
  - repeat constructor.
  - inversion Hs as [|? ? Hl Hy]; subst.
    destruct (snd y <? snd x)%nat eqn:E.
    + apply Nat.ltb_lt in E. constructor; [exact Hs|].
      constructor; [unfold desc; lia|].
      eapply List.Forall_impl; [|exact Hy]. unfold desc; intros a Ha; lia.
    + apply Nat.ltb_ge in E. constructor; [exact (IH Hl)|].
      apply List.Forall_forall. intros z Hz.
      apply (Permutation_in _ (insert_desc_perm x l)) in Hz as [<- | Hz].
      * unfold desc; lia.
      * rewrite List.Forall_forall in Hy. exact (Hy z Hz).
Qed.

Lemma sort_desc_sorted (l : list (string * nat)) : StronglySorted desc (sort_desc l).
Proof.
  unfold sort_desc.
  assert (H : forall acc, StronglySorted desc acc ->
              StronglySorted desc (fold_left (fun acc x => insert_desc x acc) l acc)).
  { induction l as [|x l IH]; intros acc Hacc; simpl; [exact Hacc|].
    apply IH, insert_desc_sorted, Hacc. }
  apply H. constructor.
Qed.

Lemma sorted_app_desc (a b : list (string * nat)) :
  StronglySorted desc (a ++ b) -> forall x y, In x a -> In y b -> desc x y.
Proof.
  induction a as [|z a IH]; intros Hs x y Hx Hy; [destruct Hx|].
  inversion Hs as [|? ? Hs' Hz]; subst.
  destruct Hx as [<- | Hx].
  - rewrite List.Forall_forall in Hz. apply Hz, in_or_app. right; exact Hy.
  - exact (IH Hs' x y Hx Hy).
Qed.

Lemma in_firstn {X} (n : nat) (l : list X) (z : X) : In z (firstn n l) -> In z l.
Proof. intros Hz. rewrite <- (firstn_skipn n l). apply in_or_app. left; exact Hz. Qed.

Lemma sorted_firstn (n : nat) (l : list (string * nat)) :
  StronglySorted desc l -> StronglySorted desc (firstn n l).
Proof.
  revert l; induction n as [|n IH]; intros [|x l] Hs; simpl; try constructor.
  - inversion Hs as [|? ? Hs' Hx]; subst. exact (IH l Hs').
  - inversion Hs as [|? ? Hs' Hx]; subst.
    rewrite List.Forall_forall in Hx |- *. intros z Hz. apply Hx.
    exact (in_firstn n l z Hz).
Qed.

(** [run_cli]'s top-10 lists: [min(10, n)] items of the counter, in
    non-increasing count order, and every item left out has a count no
    larger than every item kept. *)
Theorem top_counts_highest (c : list (string * nat)) :
  length (top_counts c) = Nat.min 10 (length c) /\
  StronglySorted desc (top_counts c) /\
  (forall x, In x (top_counts c) -> In x c) /\
  (forall x y, In x (top_counts c) -> In y c -> ~ In y (top_counts c) -> (snd y <= snd x)%nat).
Proof.
  pose proof (sort_desc_perm c) as Hp. pose proof (sort_desc_sorted c) as Hs.
  unfold top_counts. split; [|split; [|split]].
  - rewrite length_firstn, (Permutation_length Hp). reflexivity.
  - apply sorted_firstn, Hs.
  - intros x Hx. apply (Permutation_in _ Hp). exact (in_firstn _ _ _ Hx).
  - intros x y Hx Hy Hn.
    rewrite <- (firstn_skipn 10 (sort_desc c)) in Hs.
    apply (sorted_app_desc _ _ Hs x y Hx).
    apply (Permutation_in _ (Permutation_sym Hp)) in Hy.
    rewrite <- (firstn_skipn 10 (sort_desc c)) in Hy.
    apply in_app_or in Hy as [Hy | Hy]; [contradiction | exact Hy].
Qed.

Ltac cat_step lem :=
  let H := fresh "H" in let c := fresh "c" in let Hc := fresh "Hc" in
  intros ? H c Hc; unfold fact_categories in *;
  erewrite lem; [apply H; exact Hc | reflexivity].

Lemma cat_inv_flush_enzymes s : cat_inv s -> cat_inv (snd (flush_enzymes s)).
Proof. revert s; cat_step (@count_flush_enzymes string). Qed.

Lemma cat_inv_flush_proteins s : cat_inv s -> cat_inv (snd (flush_proteins s)).
Proof. revert s; cat_step (@count_flush_proteins string). Qed.

Lemma cat_inv_flush_facts s : cat_inv s -> cat_inv (snd (flush_facts s)).
Proof. revert s; cat_step (@count_flush_facts string). Qed.

Lemma cat_inv_flush_texts s : cat_inv s -> cat_inv (snd (flush_texts s)).
Proof. revert s; cat_step (@count_flush_texts string). Qed.

Lemma cat_inv_counts st ts ne np nt s : cat_inv s -> cat_inv (set_counts st ts ne np nt s).
Proof. intros H. exact H. Qed.

Lemma cat_inv_push_enzyme s r : cat_inv s -> cat_inv (set_enzyme_rows (enzyme_rows s ++ [r]) s).
Proof.
  intros H c Hc. specialize (H c Hc). unfold fact_categories in *. rewrite count_push_enzyme; [|reflexivity].
  rewrite H. reflexivity.
Qed.

Lemma cat_inv_push_protein s r : cat_inv s -> cat_inv (set_protein_rows (protein_rows s ++ [r]) s).
Proof.
  intros H c Hc. specialize (H c Hc). unfold fact_categories in *. rewrite count_push_protein; [|reflexivity].
  rewrite H. reflexivity.
Qed.

Lemma cat_inv_push_text s r : cat_inv s -> cat_inv (set_text_rows (text_rows s ++ [r]) s).
Proof.
  intros H c Hc. specialize (H c Hc). unfold fact_categories in *. rewrite count_push_text; [|reflexivity].
  rewrite H. reflexivity.
Qed.

Lemma cat_inv_push_fact s r :
  existsb (String.eqb (f_category r)) (BASE_FIELDS ++ SPECIAL_KEYS) = false ->
  cat_inv s -> cat_inv (set_fact_rows (fact_rows s ++ [r]) s).
Proof.
  intros Hr H c Hc. specialize (H c Hc). unfold fact_categories in *.
  rewrite count_push_fact; [|intros l; apply map_app].
  rewrite H. cbn [map]. unfold count_in. simpl.
  destruct (String.eqb_spec c (f_category r)) as [-> | Hne]; [congruence | reflexivity].
Qed.

Lemma hoare_cat_emit_fact ec key payload :
  existsb (String.eqb key) (BASE_FIELDS ++ SPECIAL_KEYS) = false ->
  hoare cat_inv (emit_fact ec key payload) cat_inv.
Proof.
  intros Hk. unfold emit_fact. apply hoare_bind_lift; [|auto]. intros row Hrow.
  apply hoare_modify. intros s H. apply cat_inv_counts, cat_inv_push_fact; [|exact H].
  rewrite (build_fact_row_category ec key payload row Hrow). exact Hk.
Qed.

Lemma hoare_cat_ingest_category ec key items :
  hoare cat_inv (ingest_category ec key items) cat_inv.
Proof.
  unfold ingest_category.
  destruct (existsb _ _) eqn:Hk; [apply hoare_ret|].
  destruct (negb (truthy items)); [apply hoare_ret|].
  destruct items;
    first [ apply hoare_cat_emit_fact, Hk
          | apply hoare_for_each; intros item _; apply hoare_bind_lift; [|auto];
            intros p _; apply hoare_cat_emit_fact, Hk
          | apply hoare_bind_lift; [|auto]; intros d _; apply hoare_cat_emit_fact, Hk ].
Qed.

Lemma hoare_cat_ingest_entry ec entry : hoare cat_inv (ingest_entry ec entry) cat_inv.
Proof.
  unfold ingest_entry.
  apply (hoare_bind _ cat_inv); [apply hoare_modify; intros s H; apply cat_inv_counts, H | intros _ | auto].
  apply hoare_bind_lift; [|auto]. intros row _.
  apply (hoare_bind _ cat_inv); [apply hoare_modify; intros s H; apply cat_inv_push_enzyme, H | intros _ | auto].
  apply hoare_bind_lift; [|auto]. intros proteins _. apply hoare_bind_lift; [|auto]. intros pitems _.
  apply (hoare_bind _ cat_inv); [| intros _ | auto].
  { apply hoare_for_each. intros kv _. apply hoare_bind_lift; [|auto]. intros prow _.
    apply hoare_modify. intros s H. apply cat_inv_counts, cat_inv_push_protein, H. }
  apply hoare_bind_lift; [|auto]. intros kvs _.
  apply (hoare_bind _ cat_inv); [| intros _ | auto].
  { apply hoare_for_each. intros kv _. apply hoare_cat_ingest_category. }
  apply hoare_flush_full_json; [apply cat_inv_flush_enzymes | apply cat_inv_flush_proteins | apply cat_inv_flush_facts].
Qed.

Lemma hoare_cat_json_pass entries : hoare cat_inv (json_pass entries) cat_inv.
Proof.
  unfold json_pass.
  apply (hoare_bind _ cat_inv); [| intros _ | auto].
  { apply hoare_for_each. intros kv _. apply hoare_cat_ingest_entry. }
  apply (hoare_bind _ cat_inv); [intros s H; apply cat_inv_flush_enzymes, H | intros _ | auto].
  apply (hoare_bind _ cat_inv); [intros s H; apply cat_inv_flush_proteins, H | intros _ | auto].
  intros s H; apply cat_inv_flush_facts, H.
Qed.

Lemma hoare_cat_text_pass records : hoare cat_inv (text_pass records) cat_inv.
Proof.
  unfold text_pass. apply (hoare_bind _ cat_inv); [| intros _ | auto].
  { apply hoare_for_each. intros record _. unfold text_record.
    apply (hoare_bind _ cat_inv); [| intros _ | auto].
    { apply hoare_modify. intros s H. apply cat_inv_counts, cat_inv_push_text, H. }
    apply (hoare_bind _ cat_inv); [apply hoare_get | intros s0 | auto].
    destruct (_ <=? _)%nat; [intros s H; apply cat_inv_flush_texts, H | apply hoare_ret]. }
  intros s H; apply cat_inv_flush_texts, H.
Qed.

Lemma hoare_ingest_body (Inv : run -> Prop) (fs1 : gmap string file) (json_path : string)
    (txt_path : option string) :
  (forall entries, hoare Inv (json_pass entries) Inv) ->
  (forall text, hoare Inv (text_pass (iter_text_records text)) Inv) ->
  hoare Inv
    (entries ← lift (read_entries (fs1 !! json_path));
     _ ← json_pass entries;
     _ ← (match txt_path with
          | Some p => text ← lift (read_text (fs1 !! p));
                      text_pass (iter_text_records text)
          | None => mret tt
          end);
     s ← get_run;
     mret (stats_of s))
    Inv.
Proof.
  intros Hj Ht.
  apply hoare_bind_lift; [intros entries _ | auto].
  apply (hoare_bind _ Inv); [apply Hj | intros _ | auto].
  apply (hoare_bind _ Inv); [| intros _ | auto].
  { destruct txt_path as [p|]; [|apply hoare_ret].
    apply hoare_bind_lift; [intros text _; apply Ht | auto]. }
  apply (hoare_bind _ Inv); [apply hoare_get | intros s0 | auto].
  apply hoare_ret.
Qed.

Lemma ingest_store_inv (Inv : run -> Prop) fs json_path db_path txt_path r fs' :
  Inv run0 ->
  (forall entries, hoare Inv (json_pass entries) Inv) ->
  (forall text, hoare Inv (text_pass (iter_text_records text)) Inv) ->
  ingest fs json_path db_path txt_path = (r, fs') ->
  (exists p, r = Raise (FileNotFoundError p) /\ fs' = fs) \/
  exists s, Inv s /\ store_at fs' db_path = written s.
Proof.
  intros H0 Hj Ht.
  pose proof (hoare_ingest_body Inv (<[db_path := FDb []]> (delete db_path fs))
                json_path txt_path Hj Ht run0 H0) as Hb.
  unfold ingest.
  destruct (fs !! json_path) as [f|]; [|intros H; inversion H; subst; left; eauto].
  destruct txt_path as [p|]; [destruct (fs !! p) as [fp|]; [|intros H; inversion H; subst; left; eauto]|]; cbv zeta.
  all: match goal with
  | |- context [?b run0] =>
      match type of b with
      | M ingestion_stats => destruct (b run0) as [r0 s] eqn:Eb
      end
  end.
  all: intros H; inversion H; subst; right; exists s; simpl in Hb.
  all: split; [exact Hb | unfold store_at; rewrite lookup_insert_eq; reflexivity].
Qed.

Lemma count_in_In (c : string) (l : list string) : In c l -> count_in (String.eqb c) l <> 0%nat.
Proof.
  induction l as [|x l IH]; intros Hin; [destruct Hin|].
  unfold count_in in *. simpl. destruct Hin as [-> | Hin].
  - rewrite String.eqb_refl. simpl. lia.
  - destruct (String.eqb c x); simpl; [lia | exact (IH Hin)].
Qed.

(** [ingest]: unless it fails its input checks (a missing file, store
    untouched), no [enzyme_facts] row of the new store has category [id],
    [recommended_name], [systematic_name] or [protein], also when it
    raises part way. *)
Theorem ingest_facts_never_base_fields fs json_path db_path txt_path r fs' :
  ingest fs json_path db_path txt_path = (r, fs') ->
  (exists p, r = Raise (FileNotFoundError p) /\ fs' = fs) \/
  forall c, In c (fact_categories (store_at fs' db_path)) ->
    existsb (String.eqb c) (BASE_FIELDS ++ SPECIAL_KEYS) = false.
Proof.
  intros H.
  destruct (ingest_store_inv cat_inv fs json_path db_path txt_path r fs'
              ltac:(intros c _; reflexivity) hoare_cat_json_pass
              (fun text => hoare_cat_text_pass (iter_text_records text)) H)
    as [Hl | (s & Hs & Hw)]; [left; exact Hl | right].
  intros c Hin. destruct (existsb (String.eqb c) _) eqn:Ec; [|reflexivity].
  exfalso. apply (count_in_In c _ Hin). specialize (Hs c Ec). rewrite Hw.
  unfold all_batches, fact_categories in Hs. rewrite flat_map_app, count_in_app in Hs.
  unfold fact_categories. lia.
Qed.

Ltac tstore_step lem :=
  let H := fresh "H" in
  intros ? H; unfold text_store_inv, text_rows_of in *;
  erewrite lem; [exact H | reflexivity].

Lemma tstore_flush_enzymes s : text_store_inv s -> text_store_inv (snd (flush_enzymes s)).
Proof. revert s; tstore_step (@count_flush_enzymes text_row). Qed.

Lemma tstore_flush_proteins s : text_store_inv s -> text_store_inv (snd (flush_proteins s)).
Proof. revert s; tstore_step (@count_flush_proteins text_row). Qed.

Lemma tstore_flush_facts s : text_store_inv s -> text_store_inv (snd (flush_facts s)).
Proof. revert s; tstore_step (@count_flush_facts text_row). Qed.

Lemma tstore_flush_texts s : text_store_inv s -> text_store_inv (snd (flush_texts s)).
Proof. revert s; tstore_step (@count_flush_texts text_row). Qed.

Lemma tstore_push_enzyme s r : text_store_inv s -> text_store_inv (set_enzyme_rows (enzyme_rows s ++ [r]) s).
Proof.
  unfold text_store_inv, text_rows_of. intros H. rewrite count_push_enzyme; [|reflexivity].
  rewrite H. reflexivity.
Qed.

Lemma tstore_push_protein s r : text_store_inv s -> text_store_inv (set_protein_rows (protein_rows s ++ [r]) s).
Proof.
  unfold text_store_inv, text_rows_of. intros H. rewrite count_push_protein; [|reflexivity].
  rewrite H. reflexivity.
Qed.

Lemma tstore_push_fact s r : text_store_inv s -> text_store_inv (set_fact_rows (fact_rows s ++ [r]) s).
Proof.
  unfold text_store_inv, text_rows_of. intros H. rewrite count_push_fact; [|reflexivity].
  rewrite H. reflexivity.
Qed.

Lemma tstore_push_text s r :
  text_row_okb r = true -> text_store_inv s -> text_store_inv (set_text_rows (text_rows s ++ [r]) s).
Proof.
  unfold text_store_inv, text_rows_of. intros Hr H. rewrite count_push_text; [|reflexivity].
  rewrite H. unfold count_in. simpl. rewrite Hr. reflexivity.
Qed.

Lemma hoare_tstore_json_pass entries : hoare text_store_inv (json_pass entries) text_store_inv.
Proof.
  unfold json_pass.
  apply (hoare_bind _ text_store_inv); [| intros _ | auto].
  { apply hoare_for_each. intros kv _. unfold ingest_entry.
    apply (hoare_bind _ text_store_inv); [apply hoare_modify; intros s H; exact H | intros _ | auto].
    apply hoare_bind_lift; [|auto]. intros row _.
    apply (hoare_bind _ text_store_inv); [apply hoare_modify; intros s H; apply tstore_push_enzyme, H | intros _ | auto].
    apply hoare_bind_lift; [|auto]. intros proteins _. apply hoare_bind_lift; [|auto]. intros pitems _.
    apply (hoare_bind _ text_store_inv); [| intros _ | auto].
    { apply hoare_for_each. intros kv' _. apply hoare_bind_lift; [|auto]. intros prow _.
      apply hoare_modify. intros s H. apply tstore_push_protein, H. }
    apply hoare_bind_lift; [|auto]. intros kvs _.
    apply (hoare_bind _ text_store_inv); [| intros _ | auto].
    { apply hoare_for_each. intros kv' _. unfold ingest_category.
      assert (He : forall ec key payload, hoare text_store_inv (emit_fact ec key payload) text_store_inv).
      { intros ec key payload. unfold emit_fact. apply hoare_bind_lift; [|auto]. intros row' _.
        apply hoare_modify. intros s H. apply tstore_push_fact, H. }
      destruct (existsb _ _); [apply hoare_ret|].
      destruct (negb (truthy _)); [apply hoare_ret|].
      destruct (snd kv');
        first [ apply He
              | apply hoare_for_each; intros item _; apply hoare_bind_lift; [|auto]; intros p _; apply He
              | apply hoare_bind_lift; [|auto]; intros d _; apply He ]. }
    apply hoare_flush_full_json; [apply tstore_flush_enzymes | apply tstore_flush_proteins | apply tstore_flush_facts]. }
  apply (hoare_bind _ text_store_inv); [intros s H; apply tstore_flush_enzymes, H | intros _ | auto].
  apply (hoare_bind _ text_store_inv); [intros s H; apply tstore_flush_proteins, H | intros _ | auto].
  intros s H; apply tstore_flush_facts, H.
Qed.

Lemma text_row_okb_of (r : text_row) : text_row_ok r -> text_row_okb r = true.
Proof.
  intros (H1 & H2 & H3 & H4 & H5). unfold text_row_okb, nonempty.
  rewrite H2, H4, H5, !String.eqb_refl.
  apply String.eqb_neq in H1, H3. rewrite H1, H3. reflexivity.
Qed.

Lemma hoare_tstore_text_pass text :
  hoare text_store_inv (text_pass (iter_text_records text)) text_store_inv.
Proof.
  unfold text_pass. apply (hoare_bind _ text_store_inv); [| intros _ | auto].
  { apply hoare_for_each. intros record Hin. unfold text_record.
    apply (hoare_bind _ text_store_inv); [| intros _ | auto].
    { apply hoare_modify. intros s H. apply tstore_push_text; [|exact H].
      apply text_row_okb_of. unfold iter_text_records in Hin.
      pose proof (scan_text_lines_all_ok (file_lines text)) as Hall.
      rewrite List.Forall_forall in Hall. exact (Hall record Hin). }
    apply (hoare_bind _ text_store_inv); [apply hoare_get | intros s0 | auto].
    destruct (_ <=? _)%nat; [intros s H; apply tstore_flush_texts, H | apply hoare_ret]. }
  intros s H; apply tstore_flush_texts, H.
Qed.

Lemma text_row_okb_sound (r : text_row) : text_row_okb r = true -> text_row_ok r.
Proof.
  unfold text_row_okb, nonempty. intros H.
  repeat (apply andb_prop in H as [H ?]).
  repeat match goal with
         | Hb : negb (String.eqb _ _) = true |- _ => apply negb_true_iff, String.eqb_neq in Hb
         | Hb : String.eqb _ _ = true |- _ => apply String.eqb_eq in Hb
         end.
  unfold text_row_ok. auto.
Qed.

Lemma count_in_zero {X} (f : X -> bool) (l : list X) (x : X) :
  count_in f l = 0%nat -> In x l -> f x = false.
Proof.
  unfold count_in. intros H Hin. destruct (f x) eqn:E; [|reflexivity].
  exfalso. assert (Hx : In x (List.filter f l)) by (apply filter_In; split; assumption).
  destruct (List.filter f l); [destruct Hx | discriminate H].
Qed.

(** [ingest]: unless it fails its input checks (store untouched), every
    [text_facts] row of the new store has a non-empty, stripped value and
    field code and a stripped EC number, also when it raises part way. *)
Theorem ingest_text_rows_well_formed fs json_path db_path txt_path r fs' :
  ingest fs json_path db_path txt_path = (r, fs') ->
  (exists p, r = Raise (FileNotFoundError p) /\ fs' = fs) \/
  forall row, In row (text_rows_of (store_at fs' db_path)) ->
    t_value row <> EmptyString /\ py_strip (t_value row) = t_value row /\
    t_code row <> EmptyString /\ py_strip (t_code row) = t_code row /\
    py_strip (t_ec row) = t_ec row.
Proof.
  intros H.
  destruct (ingest_store_inv text_store_inv fs json_path db_path txt_path r fs'
              eq_refl hoare_tstore_json_pass hoare_tstore_text_pass H)
    as [Hl | (s & Hs & Hw)]; [left; exact Hl | right].
  intros row Hin. apply text_row_okb_sound.
  unfold text_store_inv, all_batches, text_rows_of in Hs.
  rewrite flat_map_app, count_in_app in Hs.
  assert (H0 : count_in (fun r => negb (text_row_okb r)) (text_rows_of (written s)) = 0%nat)
    by (unfold text_rows_of; lia).
  rewrite Hw in Hin. apply negb_false_iff. exact (count_in_zero _ _ row H0 Hin).
Qed.

Lemma lookup_insert_some_iff (fs : gmap string file) (d k : string) (x y : file) :
  is_Some ((<[d := x]> fs) !! k) <-> is_Some ((<[d := y]> fs) !! k).
Proof.
  destruct (decide (k = d)) as [->|Hne].
  - rewrite !lookup_insert_eq. split; intros _; eexists; reflexivity.
  - rewrite !lookup_insert_ne by congruence. reflexivity.
Qed.

Lemma ingest_old_store_cases (fs : gmap string file) (json_path db_path : string)
    (txt_path : option string) (old1 old2 : file) :
  ingest (<[db_path := old1]> fs) json_path db_path txt_path =
  ingest (<[db_path := old2]> fs) json_path db_path txt_path \/
  exists e, ingest (<[db_path := old1]> fs) json_path db_path txt_path = (Raise e, <[db_path := old1]> fs) /\
            ingest (<[db_path := old2]> fs) json_path db_path txt_path = (Raise e, <[db_path := old2]> fs).
Proof.
  unfold ingest. rewrite !delete_insert_eq.
  pose proof (lookup_insert_some_iff fs db_path json_path old1 old2) as Hj.
  destruct ((<[db_path := old1]> fs) !! json_path) eqn:E1;
  destruct ((<[db_path := old2]> fs) !! json_path) eqn:E2.
  - destruct txt_path as [p|]; [|left; reflexivity].
    pose proof (lookup_insert_some_iff fs db_path p old1 old2) as Hp.
    destruct ((<[db_path := old1]> fs) !! p) eqn:P1;
    destruct ((<[db_path := old2]> fs) !! p) eqn:P2.
    + left; reflexivity.
    + destruct Hp as [Hp _]. destruct (Hp ltac:(eexists; reflexivity)) as [? Hx]. discriminate Hx.
    + destruct Hp as [_ Hp]. destruct (Hp ltac:(eexists; reflexivity)) as [? Hx]. discriminate Hx.
    + right; eexists; split; reflexivity.
  - destruct Hj as [Hj _]. destruct (Hj ltac:(eexists; reflexivity)) as [? Hx]. discriminate Hx.
  - destruct Hj as [_ Hj]. destruct (Hj ltac:(eexists; reflexivity)) as [? Hx]. discriminate Hx.
  - right; eexists; split; reflexivity.
Qed.

(** [ingest] when it returns normally: replacing the old file at the store
    path by any other file changes neither the returned counts nor the
    resulting file system. *)
Theorem ingest_old_store_irrelevant (fs : gmap string file) (json_path db_path : string)
    (txt_path : option string) (old1 old2 : file) (st : ingestion_stats) :
  fst (ingest (<[db_path := old1]> fs) json_path db_path txt_path) = Ok st ->
  ingest (<[db_path := old2]> fs) json_path db_path txt_path =
  ingest (<[db_path := old1]> fs) json_path db_path txt_path.
Proof.
  intros Hok.
  destruct (ingest_old_store_cases fs json_path db_path txt_path old1 old2) as [E | [e [E1 _]]].
  - symmetry; exact E.
  - rewrite E1 in Hok. discriminate Hok.
Qed.

(** [ingest]: what it returns or raises never depends on the old file at
    the store path. *)
Theorem ingest_result_old_store_irrelevant (fs : gmap string file) (json_path db_path : string)
    (txt_path : option string) (old1 old2 : file) :
  fst (ingest (<[db_path := old1]> fs) json_path db_path txt_path) =
  fst (ingest (<[db_path := old2]> fs) json_path db_path txt_path).
Proof.
  destruct (ingest_old_store_cases fs json_path db_path txt_path old1 old2) as [E | [e [E1 E2]]].
  - rewrite E; reflexivity.
  - rewrite E1, E2; reflexivity.
Qed.

Lemma ingest_old_store_irrelevant_witness :
  fst (ingest (<["out.db" := FDb []]> stats_example_fs) "in.json" "out.db" (Some "in.txt")) =
    Ok {| s_enzyme_count := 1; s_fact_count := 2; s_protein_count := 1;
          s_category_counts := [("km_value", 2%nat)]; s_text_fact_count := 2;
          s_text_field_counts := [("AB", 1%nat); ("CD", 1%nat)] |} /\
  ingest (<["out.db" := FFile "stale" None]> stats_example_fs) "in.json" "out.db" (Some "in.txt") =
  ingest (<["out.db" := FDb []]> stats_example_fs) "in.json" "out.db" (Some "in.txt").
Proof.
  split; [vm_compute; reflexivity|].
  apply (ingest_old_store_irrelevant stats_example_fs "in.json" "out.db" (Some "in.txt") (FDb []) (FFile "stale" None)
           {| s_enzyme_count := 1; s_fact_count := 2; s_protein_count := 1;
              s_category_counts := [("km_value", 2%nat)]; s_text_fact_count := 2;
              s_text_field_counts := [("AB", 1%nat); ("CD", 1%nat)] |}).
  vm_compute. reflexivity.
Defined.

Lemma scan_text_lines_terminator_witness :
  startswith "///" "///" = true /\
  scan_text_lines (file_lines scanner_example ++ "///" :: file_lines scanner_example) =
  scan_text_lines (file_lines scanner_example) ++ scan_text_lines (file_lines scanner_example).
Proof.
  split; [reflexivity|].
  apply scan_text_lines_terminator. reflexivity.
Defined.

Lemma scan_text_lines_preamble_witness :
  (forall l, In l ["header"; "///"; "*note"] -> startswith ID_TAB l = false) /\
  scan_text_lines (["header"; "///"; "*note"] ++ file_lines scanner_example) =
  scan_text_lines (file_lines scanner_example).
Proof.
  assert (H : forall l, In l ["header"; "///"; "*note"] -> startswith ID_TAB l = false)
    by (intros l [<- | [<- | [<- | []]]]; reflexivity).
  split; [exact H|]. apply scan_text_lines_preamble. exact H.
Defined.

Lemma iter_text_records_well_formed_witness :
  In (nth 0 (iter_text_records scanner_example) text_row_dummy) (iter_text_records scanner_example) /\
  t_value (nth 0 (iter_text_records scanner_example) text_row_dummy) <> EmptyString.
Proof.
  assert (Hin : In (nth 0 (iter_text_records scanner_example) text_row_dummy)
                   (iter_text_records scanner_example)) by (vm_compute; left; reflexivity).
  split; [exact Hin|].
  apply (iter_text_records_well_formed scanner_example _ Hin).
Defined.

Lemma ingest_same_path_loses_input_witness :
  ingest stats_example_fs "in.json" "in.json" (Some "in.txt") =
  (Raise JSONError, <["in.json" := FDb []]> stats_example_fs).
Proof.
  apply ingest_same_path_loses_input; vm_compute; eexists; reflexivity.
Defined.


Lemma ingest_facts_never_base_fields_witness :
  (exists p, fst (ingest stats_example_fs "in.json" "out.db" (Some "in.txt")) = Raise (FileNotFoundError p) /\
             snd (ingest stats_example_fs "in.json" "out.db" (Some "in.txt")) = stats_example_fs) \/
  forall c, In c (fact_categories (store_at (snd (ingest stats_example_fs "in.json" "out.db" (Some "in.txt"))) "out.db")) ->
    existsb (String.eqb c) (BASE_FIELDS ++ SPECIAL_KEYS) = false.
Proof.
  apply (ingest_facts_never_base_fields stats_example_fs "in.json" "out.db" (Some "in.txt")).
  vm_compute. reflexivity.
Defined.

Lemma ingest_text_rows_well_formed_witness :
  (exists p, fst (ingest stats_example_fs "in.json" "out.db" (Some "in.txt")) = Raise (FileNotFoundError p) /\
             snd (ingest stats_example_fs "in.json" "out.db" (Some "in.txt")) = stats_example_fs) \/
  forall row, In row (text_rows_of (store_at (snd (ingest stats_example_fs "in.json" "out.db" (Some "in.txt"))) "out.db")) ->
    t_value row <> EmptyString /\ py_strip (t_value row) = t_value row /\
    t_code row <> EmptyString /\ py_strip (t_code row) = t_code row /\
    py_strip (t_ec row) = t_ec row.
Proof.
  apply (ingest_text_rows_well_formed stats_example_fs "in.json" "out.db" (Some "in.txt")).
  vm_compute. reflexivity.
Defined.

(** *** Batch boundaries of the JSON pass *)

Lemma fact_rows_of_length (w : list batch) :
  length (fact_rows_of w) = list_sum (fact_batch_sizes w).
Proof.
  induction w as [|b w IH]; [reflexivity|].
  destruct b; simpl; rewrite ?length_app, IH; reflexivity.
Qed.

Lemma big_facts_flush_enzymes s : big_facts s -> big_facts (snd (flush_enzymes s)).
Proof.
  unfold big_facts, fact_batch_sizes, flush_enzymes, modify. simpl.
  destruct (enzyme_rows s); simpl; [auto|]. rewrite flat_map_app. simpl. rewrite app_nil_r. auto.
Qed.

Lemma big_facts_flush_proteins s : big_facts s -> big_facts (snd (flush_proteins s)).
Proof.
  unfold big_facts, fact_batch_sizes, flush_proteins, modify. simpl.
  destruct (protein_rows s); simpl; [auto|]. rewrite flat_map_app. simpl. rewrite app_nil_r. auto.
Qed.

Lemma big_facts_flush_facts s :
  (BATCH_SIZE <= length (fact_rows s))%nat -> big_facts s -> big_facts (snd (flush_facts s)).
Proof.
  unfold big_facts, fact_batch_sizes, flush_facts, modify. simpl.
  destruct (fact_rows s) as [|r rs]; simpl; intros Hl H; [exact H|].
  rewrite flat_map_app. simpl. apply Forall_app. split; [exact H | constructor; [exact Hl | constructor]].
Qed.

(** [flush_full_json] inserts the fact buffer only when it holds at least
    [BATCH_SIZE] rows. *)
Lemma hoare_big_flush_full_json : hoare big_facts flush_full_json big_facts.
Proof.
  unfold flush_full_json.
  apply (hoare_bind _ big_facts); [apply hoare_get | intros s0 | auto].
  apply (hoare_bind _ big_facts); [| intros _ | auto].
  { destruct (_ <=? _)%nat; [intros s Hs; apply big_facts_flush_enzymes, Hs | apply hoare_ret]. }
  apply (hoare_bind _ big_facts); [apply hoare_get | intros s1 | auto].
  apply (hoare_bind _ big_facts); [| intros _ | auto].
  { destruct (_ <=? _)%nat; [intros s Hs; apply big_facts_flush_proteins, Hs | apply hoare_ret]. }
  intros s Hs. cbv [mbind M_bind get_run].
  destruct (_ <=? _)%nat eqn:E; [| exact Hs].
  apply big_facts_flush_facts; [apply Nat.leb_le, E | exact Hs].
Qed.

Lemma hoare_big_json_loop entries :
  hoare big_facts (for_each entries (fun kv => ingest_entry (fst kv) (snd kv))) big_facts.
Proof.
  apply hoare_for_each. intros kv _. unfold ingest_entry.
  apply (hoare_bind _ big_facts); [apply hoare_modify; intros s H; exact H | intros _ | auto].
  apply hoare_bind_lift; [|auto]. intros row _.
  apply (hoare_bind _ big_facts); [apply hoare_modify; intros s H; exact H | intros _ | auto].
  apply hoare_bind_lift; [|auto]. intros proteins _. apply hoare_bind_lift; [|auto]. intros pitems _.
  apply (hoare_bind _ big_facts); [| intros _ | auto].
  { apply hoare_for_each. intros kv' _. apply hoare_bind_lift; [|auto]. intros prow _.
    apply hoare_modify. intros s H. exact H. }
  apply hoare_bind_lift; [|auto]. intros kvs _.
  apply (hoare_bind _ big_facts); [| intros _ | auto].
  { apply hoare_for_each. intros kv' _. unfold ingest_category.
    assert (He : forall ec key payload, hoare big_facts (emit_fact ec key payload) big_facts).
    { intros ec key payload. unfold emit_fact. apply hoare_bind_lift; [|auto]. intros row' _.
      apply hoare_modify. intros s H. exact H. }
    destruct (existsb _ _); [apply hoare_ret|].
    destruct (negb (truthy _)); [apply hoare_ret|].
    destruct (snd kv');
      first [ apply He
            | apply hoare_for_each; intros item _; apply hoare_bind_lift; [|auto]; intros p _; apply He
            | apply hoare_bind_lift; [|auto]; intros d _; apply He ]. }
  apply hoare_big_flush_full_json.
Qed.

Lemma json_pass_state entries s :
  fst (json_pass entries s) = Ok tt ->
  snd (json_pass entries s) =
  snd (flush_facts (snd (flush_proteins (snd (flush_enzymes
    (snd (for_each entries (fun kv => ingest_entry (fst kv) (snd kv)) s))))))).
Proof.
  unfold json_pass. cbv [mbind M_bind].
  destruct (for_each _ _ s) as [[u|e] s1]; [|discriminate].
  intros _. reflexivity.
Qed.

Lemma fact_sizes_flush_enzymes s :
  fact_batch_sizes (written (snd (flush_enzymes s))) = fact_batch_sizes (written s).
Proof.
  unfold fact_batch_sizes, flush_enzymes, modify. simpl.
  destruct (enzyme_rows s); simpl; [reflexivity|]. rewrite flat_map_app. simpl. apply app_nil_r.
Qed.

Lemma fact_sizes_flush_proteins s :
  fact_batch_sizes (written (snd (flush_proteins s))) = fact_batch_sizes (written s).
Proof.
  unfold fact_batch_sizes, flush_proteins, modify. simpl.
  destruct (protein_rows s); simpl; [reflexivity|]. rewrite flat_map_app. simpl. apply app_nil_r.
Qed.

Lemma fact_sizes_flush_facts s :
  fact_batch_sizes (written (snd (flush_facts s))) =
    fact_batch_sizes (written s) ++ (match fact_rows s with [] => [] | rows => [length rows] end).
Proof.
  unfold fact_batch_sizes, flush_facts, modify. simpl.
  destruct (fact_rows s); simpl; [symmetry; apply app_nil_r|]. rewrite flat_map_app. reflexivity.
Qed.

Lemma final_flushes_facts s :
  fact_batch_sizes (written (snd (flush_facts (snd (flush_proteins (snd (flush_enzymes s))))))) =
    fact_batch_sizes (written s) ++
    (match fact_rows s with [] => [] | rows => [length rows] end) /\
  fact_rows (snd (flush_facts (snd (flush_proteins (snd (flush_enzymes s)))))) = [].
Proof.
  split; [| apply flush_facts_empty].
  rewrite fact_sizes_flush_facts, fact_sizes_flush_proteins, fact_sizes_flush_enzymes,
    flush_proteins_facts, flush_enzymes_facts.
  reflexivity.
Qed.

Lemma exact_batch_sizes (L tail : list nat) :
  Forall (fun n => (BATCH_SIZE <= n)%nat) L ->
  (tail = [] \/ exists k, tail = [S k]) ->
  list_sum (L ++ tail) = BATCH_SIZE -> L ++ tail = [BATCH_SIZE].
Proof.
  assert (HN : (0 < BATCH_SIZE)%nat) by (cbv; lia).
  intros HL Ht Hs. destruct L as [|a L'].
  - destruct Ht as [-> | (k & ->)]; simpl in Hs |- *; [lia | f_equal; lia].
  - apply Forall_cons_iff in HL as [Ha HL']. simpl in Hs.
    destruct L' as [|b L''].
    + destruct Ht as [-> | (k & ->)]; simpl in Hs |- *; [f_equal; lia | lia].
    + apply Forall_cons_iff in HL' as [Hb _]. simpl in Hs. lia.
Qed.

(** C3 (amended): the text pass tests its buffer after every record: from
    an empty buffer, [n] records are inserted in batches of [BATCH_SIZE]
    then one batch of the remainder, in order, nothing staying buffered, so
    [BATCH_SIZE] records give one batch and [BATCH_SIZE + 1] records a full
    batch then a batch of one.  The JSON pass tests its fact buffer only
    after each entry; still, a completed pass that inserts exactly
    [BATCH_SIZE] facts does so in one [enzyme_facts] insert of
    [BATCH_SIZE] rows and leaves nothing buffered. *)
Theorem batch_boundaries (recs : list text_row) (s : run) (entries : list (string * pyval)) :
  (text_rows s = [] ->
   (chunk_sizes BATCH_SIZE = [BATCH_SIZE] /\ chunk_sizes (S BATCH_SIZE) = [BATCH_SIZE; 1%nat]) /\
   exists bs, fst (text_pass recs s) = Ok tt /\
     written (snd (text_pass recs s)) = written s ++ map BText bs /\
     concat bs = recs /\ map (@length _) bs = chunk_sizes (length recs) /\
     text_rows (snd (text_pass recs s)) = []) /\
  (fst (json_pass entries run0) = Ok tt ->
   length (fact_rows_of (written (snd (json_pass entries run0)))) = BATCH_SIZE ->
   fact_batch_sizes (written (snd (json_pass entries run0))) = [BATCH_SIZE] /\
   fact_rows (snd (json_pass entries run0)) = []).
Proof.
  split; [apply text_pass_chunks|].
  intros Hok Hlen. rewrite (json_pass_state entries run0 Hok) in Hlen |- *.
  assert (Hinv : big_facts (snd (for_each entries (fun kv => ingest_entry (fst kv) (snd kv)) run0)))
    by (apply hoare_big_json_loop; unfold big_facts; simpl; constructor).
  set (s1 := snd (for_each entries _ run0)) in *.
  destruct (final_flushes_facts s1) as [Hb Hf].
  rewrite fact_rows_of_length, Hb in Hlen. rewrite Hb, Hf.
  split; [| reflexivity].
  apply exact_batch_sizes; [exact Hinv | | exact Hlen].
  destruct (fact_rows s1); [left | right; eexists]; reflexivity.
Qed.

Lemma batch_boundaries_witness :
  ((chunk_sizes BATCH_SIZE = [BATCH_SIZE] /\ chunk_sizes (S BATCH_SIZE) = [BATCH_SIZE; 1%nat]) /\
   exists bs, fst (text_pass (repeat (plain_record "E1" "AB" "x") 501) run0) = Ok tt /\
     written (snd (text_pass (repeat (plain_record "E1" "AB" "x") 501) run0)) =
       written run0 ++ map BText bs /\
     concat bs = repeat (plain_record "E1" "AB" "x") 501 /\
     map (@length _) bs = chunk_sizes (length (repeat (plain_record "E1" "AB" "x") 501)) /\
     text_rows (snd (text_pass (repeat (plain_record "E1" "AB" "x") 501) run0)) = []) /\
  (fact_batch_sizes (written (snd (json_pass (km_entries 500) run0))) = [BATCH_SIZE] /\
   fact_rows (snd (json_pass (km_entries 500) run0)) = []).
Proof.
  destruct (batch_boundaries (repeat (plain_record "E1" "AB" "x") 501) run0 (km_entries 500))
    as [Ht Hj].
  split; [apply Ht; reflexivity | apply Hj; vm_compute; reflexivity].
Defined.
